(** * setup.py of Restless Quantum Volume: an embedding and its properties

    The script reads three text files, discovers the packages below the
    working directory and hands one keyword record to [setuptools.setup].
    Everything it computes goes through the Python runtime: [str] methods,
    [os.path], [open] and [setuptools.find_packages].  Those are embedded
    here from their published sources (CPython 3.11, setuptools 75), the
    script itself line by line. *)

From Stdlib Require Import List NArith ZArith Bool String Ascii Lia.
Import ListNotations.
Local Open Scope N_scope.
Local Open Scope list_scope.

(** ** Python [str]: a sequence of Unicode code points *)

Definition str : Type := list N.

(** An ASCII literal as a [str]. *)
Definition py (s : string) : str :=
  map N_of_ascii (list_ascii_of_string s).

Definition LF : N := 10.
Definition CR : N := 13.
Definition SLASH : N := 47.
Definition DOT : N := 46.
Definition STAR : N := 42.
Definition QMARK : N := 63.

Fixpoint str_eqb (a b : str) : bool :=
  match a, b with
  | [], [] => true
  | x :: a', y :: b' => (x =? y) && str_eqb a' b'
  | _, _ => false
  end.

Fixpoint startswith (s prefix : str) {struct prefix} : bool :=
  match prefix, s with
  | [], _ => true
  | p :: prefix', c :: s' => (c =? p) && startswith s' prefix'
  | _ :: _, [] => false
  end.

Definition endswith (s suffix : str) : bool :=
  startswith (rev s) (rev suffix).

(** [c in s] for a one-character [c]. *)
Definition contains (c : N) (s : str) : bool := existsb (N.eqb c) s.

(** [str.isspace] on one code point ([_PyUnicode_IsWhitespace]). *)
Definition isspace (c : N) : bool :=
  ((9 <=? c) && (c <=? 13)) || ((28 <=? c) && (c <=? 32))
  || (c =? 133) || (c =? 160) || (c =? 5760)
  || ((8192 <=? c) && (c <=? 8202))
  || (c =? 8232) || (c =? 8233) || (c =? 8239) || (c =? 8287)
  || (c =? 12288).

(** Line boundaries of [str.splitlines] ([_PyUnicode_IsLinebreak]). *)
Definition islinebreak (c : N) : bool :=
  ((10 <=? c) && (c <=? 13)) || ((28 <=? c) && (c <=? 30))
  || (c =? 133) || (c =? 8232) || (c =? 8233).

Fixpoint dropwhile {A} (f : A -> bool) (l : list A) : list A :=
  match l with
  | [] => []
  | x :: l' => if f x then dropwhile f l' else l
  end.

(** [s.rstrip()]: the index moves down from the end while it sees
    whitespace, and the slice before it is returned. *)
Definition rstrip (s : str) : str := rev (dropwhile isspace (rev s)).

(** [s.splitlines()], [keepends] false.  [cur] is the line being scanned,
    last character first.  A carriage return directly followed by a line
    feed is one boundary; the text after the last boundary is a line only
    when it is not empty. *)
Fixpoint splitlines_from (cur : str) (s : str) : list str :=
  match s with
  | [] => match cur with [] => [] | _ => [rev cur] end
  | c :: s' =>
      if islinebreak c then
        rev cur ::
          match s' with
          | d :: s'' =>
              if (c =? CR) && (d =? LF) then splitlines_from [] s''
              else splitlines_from [] s'
          | [] => splitlines_from [] s'
          end
      else splitlines_from (c :: cur) s'
  end.

Definition splitlines (s : str) : list str := splitlines_from [] s.

(** [s.split(sep)] for a one-character separator: never empty. *)
Fixpoint str_split (sep : N) (s : str) : list str :=
  match s with
  | [] => [[]]
  | c :: s' =>
      if c =? sep then [] :: str_split sep s'
      else match str_split sep s' with
           | [] => [[c]]
           | h :: t => (c :: h) :: t
           end
  end.

(** [sep.join(parts)]. *)
Fixpoint join_sep (sep : N) (parts : list str) : str :=
  match parts with
  | [] => []
  | [p] => p
  | p :: rest => p ++ sep :: join_sep sep rest
  end.

(** ** [os.path] (posixpath) *)

Definition isabs (s : str) : bool := startswith s [SLASH].

(** [posixpath.join(a, b)], one step of its loop. *)
Definition join (a b : str) : str :=
  if startswith b [SLASH] then b
  else if match a with [] => true | _ => false end || endswith a [SLASH]
       then a ++ b
       else a ++ SLASH :: b.

(** [p.rfind('/')]: the highest index of a slash in [p], or -1.  [i] is the
    index of the head of [s] in [p]. *)
Fixpoint rfind_from (i : Z) (s : str) : Z :=
  match s with
  | [] => (-1)%Z
  | c :: s' =>
      let r := rfind_from (i + 1)%Z s' in
      if (0 <=? r)%Z then r else if c =? SLASH then i else (-1)%Z
  end.

Definition rfind_slash (p : str) : Z := rfind_from 0%Z p.

(** [s.rstrip('/')]. *)
Definition rstrip_slash (s : str) : str :=
  rev (dropwhile (N.eqb SLASH) (rev s)).

(** [posixpath.dirname]. *)
Definition dirname (p : str) : str :=
  let i := (rfind_slash p + 1)%Z in
  let head := firstn (Z.to_nat i) p in
  if negb (match head with [] => true | _ => false end)
     && negb (forallb (N.eqb SLASH) head)
  then rstrip_slash head
  else head.

(** The loop of [posixpath.normpath] over the components; [initial] tells
    whether the path began with a slash. *)
Definition normpath_step (initial : bool) (new_comps : list str) (comp : str)
  : list str :=
  if str_eqb comp [] || str_eqb comp [DOT] then new_comps
  else if negb (str_eqb comp [DOT; DOT])
          || (negb initial && match new_comps with [] => true | _ => false end)
          || (match new_comps with
              | [] => false
              | _ => str_eqb (last new_comps []) [DOT; DOT]
              end)
       then new_comps ++ [comp]
       else removelast new_comps.

(** [posixpath.normpath]. *)
Definition normpath (path : str) : str :=
  match path with
  | [] => [DOT]
  | _ =>
      let initial := startswith path [SLASH] in
      let initial_slashes : nat :=
        if initial && startswith path [SLASH; SLASH]
           && negb (startswith path [SLASH; SLASH; SLASH])
        then 2%nat else if initial then 1%nat else 0%nat in
      let comps :=
        fold_left (normpath_step initial) (str_split SLASH path) [] in
      let out := repeat SLASH initial_slashes ++ join_sep SLASH comps in
      match out with [] => [DOT] | _ => out end
  end.

(** ** The file system and the process environment *)

(** What a regular file gives to a text-mode [read()]: its text, as the
    text layer delivers it, or the reason it cannot be read. *)
Inductive content : Type :=
| Text (t : str)
| NoPermission
| BadEncoding.

(** A directory lists its entries in the order [os.scandir] reports them. *)
#[warning="-register-all"]
Inductive node : Type :=
| File (c : content)
| Dir (entries : list (str * node)).

Fixpoint assoc {A} (k : str) (l : list (str * A)) : option A :=
  match l with
  | [] => None
  | (k', v) :: l' => if str_eqb k k' then Some v else assoc k l'
  end.

Inductive lookup_result : Type :=
| NoEntry            (* ENOENT: a component does not exist *)
| NotDir             (* ENOTDIR: a component on the way is a regular file *)
| Found (n : node).

(** Descend from [n] along the components [p]. *)
Fixpoint lookup (n : node) (p : list str) : lookup_result :=
  match p with
  | [] => Found n
  | x :: p' =>
      match n with
      | File _ => NotDir
      | Dir es =>
          match assoc x es with
          | None => NoEntry
          | Some n' => lookup n' p'
          end
      end
  end.

(** The process: its working directory (the components below the root
    directory), the value of [__file__], and the tree under "/". *)
Record env : Type := {
  cwd : list str;
  script : str;
  fs : node
}.

(** [os.getcwd()]. *)
Definition getcwd (e : env) : str := SLASH :: join_sep SLASH (cwd e).

(** [posixpath.abspath]. *)
Definition abspath (e : env) (path : str) : str :=
  normpath (if isabs path then path else join (getcwd e) path).

(** How the operating system resolves a path name: an absolute name starts
    at the root, any other at the working directory; empty components and
    "." stay in place, ".." moves to the parent (the root is its own
    parent), a name moves to that entry.  There are no symbolic links. *)
Definition namei_step (at_ : list str) (comp : str) : list str :=
  if str_eqb comp [] || str_eqb comp [DOT] then at_
  else if str_eqb comp [DOT; DOT] then removelast at_
  else at_ ++ [comp].

Definition namei (e : env) (path : str) : list str :=
  fold_left namei_step (str_split SLASH path)
            (if isabs path then [] else cwd e).

(** ** Exceptions, the trace and the script's monad *)

(** The exceptions [open] and [read] raise here; the [OSError]s carry the
    file name that was passed to [open]. *)
Inductive exn : Type :=
| FileNotFoundError (filename : str)
| NotADirectoryError (filename : str)
| IsADirectoryError (filename : str)
| PermissionError (filename : str)
| UnicodeDecodeError.

(** The keyword arguments of the call to [setup], in the order written. *)
Record descriptor : Type := {
  name : str;
  version : str;
  description : str;
  long_description : str;
  long_description_content_type : str;
  url : str;
  author : str;
  author_email : str;
  license : str;
  classifiers : list str;
  keywords : str;
  packages : list str;
  install_requires : list str;
  include_package_data : bool;
  python_requires : str;
  zip_safe : bool
}.

(** What the process does that can be seen from outside, oldest first: it
    opens the file at a place of the tree, it scans a directory for
    packages, it calls [setuptools.setup]. *)
Inductive event : Type :=
| EvOpen (place : list str)
| EvScan (place : list str)
| EvSetup (d : descriptor).

(** A computation appends to the trace and ends in a value or in an
    uncaught exception. *)
Definition M (A : Type) : Type := list event -> list event * (exn + A).

Definition ret {A} (a : A) : M A := fun tr => (tr, inr a).
Definition raise {A} (x : exn) : M A := fun tr => (tr, inl x).
Definition emit (ev : event) : M unit := fun tr => (tr ++ [ev], inr tt).
Definition bind {A B} (m : M A) (k : A -> M B) : M B :=
  fun tr =>
    match m tr with
    | (tr', inl x) => (tr', inl x)
    | (tr', inr a) => k a tr'
    end.

Declare Scope script_scope.
Delimit Scope script_scope with script.
Notation "x <- m ;; k" := (bind m (fun x => k))
  (at level 100, m at next level, right associativity) : script_scope.
Notation "m ;;; k" := (bind m (fun _ => k))
  (at level 100, right associativity) : script_scope.

(** What [open(path).read()] finds at [path]. *)
Definition read_result (e : env) (path : str) : exn + str :=
  match lookup (fs e) (namei e path) with
  | NoEntry => inl (FileNotFoundError path)
  | NotDir => inl (NotADirectoryError path)
  | Found (Dir _) => inl (IsADirectoryError path)
  | Found (File NoPermission) => inl (PermissionError path)
  | Found (File BadEncoding) => inl UnicodeDecodeError
  | Found (File (Text t)) => inr t
  end.

(** [with open(path) as f: ... f.read()]. *)
Definition open_read (e : env) (path : str) : M str :=
  (emit (EvOpen (namei e path)) ;;;
   match read_result e path with
   | inl x => raise x
   | inr t => ret t
   end)%script.

(** ** [setuptools.find_packages] *)

(** [fnmatch.fnmatchcase] for patterns made of plain characters, [*] and
    [?]; none of the patterns used here has a bracket expression. *)
Fixpoint fnmatchcase_pat (pat : str) : str -> bool :=
  match pat with
  | [] => fun name => match name with [] => true | _ => false end
  | p :: pat' =>
      if p =? STAR then
        fix star (name : str) : bool :=
          fnmatchcase_pat pat' name
          || match name with [] => false | _ :: name' => star name' end
      else
        fun name =>
          match name with
          | [] => false
          | c :: name' => ((p =? QMARK) || (p =? c)) && fnmatchcase_pat pat' name'
          end
  end.

Definition fnmatchcase (name pat : str) : bool := fnmatchcase_pat pat name.

(** [_Filter.__call__] and [_Filter.__contains__]. *)
Definition filter_call (patterns : list str) (item : str) : bool :=
  existsb (fnmatchcase item) patterns.
Definition filter_contains (patterns : list str) (item : str) : bool :=
  existsb (str_eqb item) patterns.

Definition ALWAYS_EXCLUDE : list str := [py "ez_setup"; py "*__pycache__"].

(** [os.path.isfile(os.path.join(path, '__init__.py'))] for the directory
    with the entries [es]. *)
Definition looks_like_package (es : list (str * node)) : bool :=
  match assoc (py "__init__.py") es with
  | Some (File _) => true
  | _ => false
  end.

(** The package name of the directory at [rel] below the scanned one. *)
Definition package_name (rel : list str) : str := join_sep DOT rel.

Section Find.
Variables exclude include : list str.

(** Is the sub-directory [dir] of the directory at [rel], with entries
    [es], a valid package directory? *)
Definition valid_package (dir : str) (es : list (str * node)) : bool :=
  negb (contains DOT dir) && looks_like_package es.

Definition pruned (package : str) : bool :=
  filter_contains exclude (package ++ [STAR])
  || filter_contains exclude (package ++ [DOT; STAR]).

(** [PackageFinder._find_iter] over [os.walk], top down: for the
    directory at [rel] the loop body runs over its sub-directories in
    order and yields the packages kept; the sub-directories left in
    [dirs] are then walked in the same order. *)
Fixpoint find_iter (rel : list str) (n : node) : list str :=
  match n with
  | File _ => []
  | Dir entries =>
      flat_map
        (fun en =>
           match en with
           | (dir, Dir es) =>
               let package := package_name (rel ++ [dir]) in
               if valid_package dir es
                  && filter_call include package
                  && negb (filter_call exclude package)
               then [package] else []
           | (_, File _) => []
           end) entries
      ++
      flat_map
        (fun en =>
           match en with
           | (dir, Dir es as sub) =>
               let package := package_name (rel ++ [dir]) in
               if valid_package dir es && negb (pruned package)
               then find_iter (rel ++ [dir]) sub else []
           | (_, File _) => []
           end) entries
  end.
End Find.

(** [find_packages(where='.', exclude=..., include=('*',))]: the walk starts
    at the working directory; a directory that cannot be listed yields
    nothing. *)
Definition find_packages_in (e : env) (exclude : list str) : list str :=
  match lookup (fs e) (cwd e) with
  | Found n => find_iter (ALWAYS_EXCLUDE ++ exclude) [[STAR]] [] n
  | _ => []
  end.

Definition find_packages (e : env) (exclude : list str) : M (list str) :=
  (emit (EvScan (cwd e)) ;;; ret (find_packages_in e exclude))%script.

(** ** The script *)

(** The call of [setup] with its keyword arguments: the record reaches the
    packaging entry point.  The run is followed up to this call; what the
    packaging tool does with the record, and whether it fails, is not part
    of the script. *)
Definition setup (d : descriptor) : M descriptor :=
  (emit (EvSetup d) ;;; ret d)%script.

Definition version_path (e : env) : str :=
  abspath e
    (join (join (dirname (script e)) (py "restless_quantum_volume"))
          (py "VERSION.txt")).

Definition README_PATH (e : env) : str :=
  join (abspath e (dirname (script e))) (py "README.md").

Definition CLASSIFIERS : list str :=
  [ py "Environment :: Console";
    py "License :: OSI Approved :: Apache Software License";
    py "Intended Audience :: Developers";
    py "Intended Audience :: Science/Research";
    py "Operating System :: Microsoft :: Windows";
    py "Operating System :: MacOS";
    py "Operating System :: POSIX :: Linux";
    py "Programming Language :: Python :: 3 :: Only";
    py "Programming Language :: Python :: 3.7";
    py "Programming Language :: Python :: 3.8";
    py "Programming Language :: Python :: 3.9";
    py "Programming Language :: Python :: 3.10";
    py "Topic :: Scientific/Engineering" ].

(** The module body of setup.py, statement by statement.  The result is
    the record [setup] was called with, or the exception that ended the
    process before. *)
Definition setup_py (e : env) : M descriptor :=
  (f_read <- open_read e (py "requirements.txt") ;;
   let REQUIREMENTS := splitlines f_read in
   fd_read <- open_read e (version_path e) ;;
   let version := rstrip fd_read in
   README <- open_read e (README_PATH e) ;;
   found <- find_packages e [py "test*"] ;;
   setup {|
     name := py "Restless Quantum Volume";
     version := version;
     description := py "A restless quantum volume experiment with restless analysisnd restless mixin for quantum volume";
     long_description := README;
     long_description_content_type := py "text/markdown";
     url := py "https://github.com/danielazaidenberg/Restless Quantum Volume";
     author := py "Daniela Zaidenberg and Will Shanks";
     author_email := py "Daniela.Zaidenberg@ibm.com and Will.Shanks@ibm.com";
     license := py "Apache 2.0";
     classifiers := CLASSIFIERS;
     keywords := py "qiskit experiments";
     packages := found;
     install_requires := REQUIREMENTS;
     include_package_data := true;
     python_requires := py ">=3.7";
     zip_safe := false
   |})%script.

(** One run of the process: the trace and how it ended. *)
Definition run (e : env) : list event * (exn + descriptor) := setup_py e [].

Definition trace (e : env) : list event := fst (run e).
Definition outcome (e : env) : exn + descriptor := snd (run e).

(** The directory that holds the script. *)
Definition root (e : env) : list str := namei e (dirname (script e)).

(** A name that is one path component: not empty, not "." or "..", no
    slash. *)
Definition plain_name (x : str) : bool :=
  negb (str_eqb x []) && negb (str_eqb x [DOT]) && negb (str_eqb x [DOT; DOT])
  && negb (contains SLASH x).

(** The working directory is a list of names. *)
Definition wf_cwd (e : env) : Prop := forallb plain_name (cwd e) = true.

(** The record the script hands over, as a function of what it read and
    found. *)
Definition kwargs (REQUIREMENTS : list str) (version README : str)
           (found : list str) : descriptor :=
  {| name := py "Restless Quantum Volume";
     version := version;
     description := py "A restless quantum volume experiment with restless analysisnd restless mixin for quantum volume";
     long_description := README;
     long_description_content_type := py "text/markdown";
     url := py "https://github.com/danielazaidenberg/Restless Quantum Volume";
     author := py "Daniela Zaidenberg and Will Shanks";
     author_email := py "Daniela.Zaidenberg@ibm.com and Will.Shanks@ibm.com";
     license := py "Apache 2.0";
     classifiers := CLASSIFIERS;
     keywords := py "qiskit experiments";
     packages := found;
     install_requires := REQUIREMENTS;
     include_package_data := true;
     python_requires := py ">=3.7";
     zip_safe := false |}.


(** The dependency list in the words of the specification: the text cut at
    its newlines, the empty pieces left out. *)
Definition spec_non_empty_lines (t : str) : list str :=
  filter (fun l => negb (str_eqb l [])) (str_split LF t).

(** ** Sample project directories *)

Definition init_py : str * node := (py "__init__.py", File (Text [])).

(** A checkout of the project: the three files (the version file may be
    missing), the package with a [tests] sub-package, and a top-level
    [test] package. *)
Definition checkout (req : content) (ver : option content) (readme : content)
  : node :=
  Dir [ (py "setup.py", File (Text []));
        (py "requirements.txt", File req);
        (py "README.md", File readme);
        (py "restless_quantum_volume",
         Dir (init_py
              :: match ver with
                 | Some c => [(py "VERSION.txt", File c)]
                 | None => []
                 end
              ++ [(py "tests", Dir [init_py])]));
        (py "test", Dir [init_py; (py "unit", Dir [init_py])]) ].

(** The checkout at /proj, next to an empty /tmp. *)
Definition disk (proj : node) : node :=
  Dir [(py "proj", proj); (py "tmp", Dir [])].

(** [cd /proj; python setup.py] *)
Definition launched_in_root (proj : node) : env :=
  {| cwd := [py "proj"]; script := py "setup.py"; fs := disk proj |}.

(** [cd /tmp; python /proj/setup.py] *)
Definition launched_elsewhere (proj : node) : env :=
  {| cwd := [py "tmp"]; script := py "/proj/setup.py"; fs := disk proj |}.

(** The checkout at /home/dev/rqv, launched there by its full name. *)
Definition launched_in_home (proj : node) : env :=
  {| cwd := [py "home"; py "dev"; py "rqv"];
     script := py "/home/dev/rqv/setup.py";
     fs := Dir [(py "home", Dir [(py "dev", Dir [(py "rqv", proj)])])] |}.

Definition sample_requirements : str :=
  py "numpy" ++ [LF; LF] ++ py "scipy" ++ [LF].
Definition sample_version : str := py "1.2.3" ++ [LF].
Definition sample_readme : str := py "# Restless Quantum Volume" ++ [LF].

Definition sample_checkout : node :=
  checkout (Text sample_requirements) (Some (Text sample_version))
           (Text sample_readme).

(** A checkout in which [restless_quantum_volume] is a regular file, not a
    directory; the requirements file and the README are in place. *)
Definition checkout_package_is_file : node :=
  Dir [ (py "setup.py", File (Text []));
        (py "requirements.txt", File (Text sample_requirements));
        (py "README.md", File (Text sample_readme));
        (py "restless_quantum_volume", File (Text [])) ].

Definition sample_descriptor : descriptor :=
  kwargs [py "numpy"; []; py "scipy"] (py "1.2.3") sample_readme
         [py "restless_quantum_volume"; py "restless_quantum_volume.tests"].

(** A chain of package directories below [n]: each name has no dot, is a
    sub-directory of the one before and holds a regular file
    [__init__.py]. *)
Fixpoint is_package_chain (n : node) (rel : list str) : Prop :=
  match rel with
  | [] => True
  | dir :: rest =>
      match n with
      | File _ => False
      | Dir entries =>
          exists es,
            In (dir, Dir es) entries
            /\ contains DOT dir = false
            /\ looks_like_package es = true
            /\ is_package_chain (Dir es) rest
      end
  end.

(** * Properties *)

(** ** Strings *)

Lemma str_eqb_eq (a b : str) : str_eqb a b = true <-> a = b.
Proof.
  revert b; induction a as [|x a IH]; intros [|y b]; simpl;
    try (split; (reflexivity || discriminate)).
  rewrite andb_true_iff, N.eqb_eq, IH. split.
  - intros [-> ->]. reflexivity.
  - intros H. injection H as -> ->. now split.
Qed.

Lemma str_eqb_refl (a : str) : str_eqb a a = true.
Proof. now apply str_eqb_eq. Qed.

Lemma str_eqb_neq (a b : str) : str_eqb a b = false <-> a <> b.
Proof.
  split.
  - intros H E. apply str_eqb_eq in E. congruence.
  - intros H. destruct (str_eqb a b) eqn:E; [|reflexivity].
    apply str_eqb_eq in E. contradiction.
Qed.

Lemma startswith_app (s t p : str) :
  startswith s p = true -> startswith (s ++ t) p = true.
Proof.
  revert s; induction p as [|c p IH]; intros [|x s]; simpl; intros H;
    try reflexivity; try discriminate.
  apply andb_true_iff in H as [H1 H2].
  rewrite H1. simpl. now apply IH.
Qed.

Lemma startswith_nonempty_app (s t : str) (p : N) :
  s <> [] -> startswith (s ++ t) [p] = startswith s [p].
Proof. destruct s; [congruence|reflexivity]. Qed.

Lemma endswith_slash_inv (s : str) :
  endswith s [SLASH] = true -> exists s', s = s' ++ [SLASH].
Proof.
  unfold endswith. simpl. destruct (rev s) as [|c r] eqn:E; [discriminate|].
  intros H. rewrite andb_true_r in H. apply N.eqb_eq in H. subst c.
  exists (rev r). rewrite <- (rev_involutive s), E. reflexivity.
Qed.

Lemma dropwhile_split {A} (f : A -> bool) (l : list A) :
  exists w, l = w ++ dropwhile f l /\ forallb f w = true.
Proof.
  induction l as [|x l [w [E F]]]; simpl.
  - exists []. now split.
  - destruct (f x) eqn:Fx.
    + exists (x :: w). simpl. rewrite Fx, F. split; [congruence|reflexivity].
    + exists []. now split.
Qed.

Lemma dropwhile_head {A} (f : A -> bool) (l : list A) :
  match dropwhile f l with [] => True | x :: _ => f x = false end.
Proof.
  induction l as [|x l IH]; simpl; [exact I|].
  destruct (f x) eqn:Fx; [exact IH|exact Fx].
Qed.

Lemma dropwhile_all {A} (f : A -> bool) (l : list A) :
  dropwhile f l = [] <-> forallb f l = true.
Proof.
  induction l as [|x l IH]; simpl; [tauto|].
  destruct (f x); simpl; [exact IH|]. split; discriminate.
Qed.

Lemma forallb_rev {A} (f : A -> bool) (l : list A) :
  forallb f (rev l) = forallb f l.
Proof.
  induction l as [|x l IH]; simpl; [reflexivity|].
  rewrite forallb_app, IH. simpl. rewrite andb_true_r. apply andb_comm.
Qed.

(** [rstrip] removes a run of whitespace from the end, and the whole of it. *)
Lemma rstrip_spec (t : str) :
  (exists w, t = rstrip t ++ w /\ forallb isspace w = true)
  /\ (forall s c, rstrip t = s ++ [c] -> isspace c = false).
Proof.
  unfold rstrip. split.
  - destruct (dropwhile_split isspace (rev t)) as [w [E F]].
    exists (rev w). split.
    + rewrite <- rev_app_distr, <- E. symmetry. apply rev_involutive.
    + now rewrite forallb_rev.
  - intros s c E. pose proof (dropwhile_head isspace (rev t)) as H.
    apply (f_equal (@rev N)) in E. rewrite rev_involutive, rev_app_distr in E.
    simpl in E. rewrite E in H. exact H.
Qed.

Lemma rstrip_empty_iff (t : str) :
  rstrip t = [] <-> forallb isspace t = true.
Proof.
  unfold rstrip. rewrite <- (forallb_rev isspace t), <- dropwhile_all.
  split; intros H.
  - apply (f_equal (@rev N)) in H. now rewrite rev_involutive in H.
  - now rewrite H.
Qed.

(** Lines written one after the other, each closed by a line feed, come
    back from [splitlines] as they were, the empty ones too. *)
Lemma splitlines_from_line (l cur rest : str) :
  forallb (fun c => negb (islinebreak c)) l = true ->
  splitlines_from cur (l ++ LF :: rest) = (rev cur ++ l) :: splitlines rest.
Proof.
  revert cur; induction l as [|c l IH]; intros cur H.
  - simpl. rewrite app_nil_r. destruct rest; reflexivity.
  - simpl in H. apply andb_true_iff in H as [Hc Hl].
    apply negb_true_iff in Hc. simpl. rewrite Hc, IH by assumption.
    simpl. now rewrite <- app_assoc.
Qed.

Lemma splitlines_lines (ls : list str) :
  Forall (fun l => forallb (fun c => negb (islinebreak c)) l = true) ls ->
  splitlines (List.concat (map (fun l => l ++ [LF]) ls)) = ls.
Proof.
  induction 1 as [|l ls Hl _ IH]; [reflexivity|].
  simpl. rewrite <- app_assoc. simpl. unfold splitlines at 1.
  rewrite splitlines_from_line by assumption. simpl. now rewrite IH.
Qed.

Lemma str_split_nonempty (sep : N) (s : str) : str_split sep s <> [].
Proof.
  destruct s as [|c s]; simpl; [discriminate|].
  destruct (c =? sep); [discriminate|].
  destruct (str_split sep s); discriminate.
Qed.

Lemma splitlines_from_LF (cur r : str) :
  splitlines_from cur (LF :: r) = rev cur :: splitlines_from [] r.
Proof. destruct r; reflexivity. Qed.

(** On a text whose only line boundaries are line feeds, [splitlines] and
    the cut at the newlines differ by empty pieces only. *)
Lemma splitlines_from_vs_split (r cur : str) :
  (forall c, In c r -> islinebreak c = true -> c = LF) ->
  filter (fun l => negb (str_eqb l [])) (splitlines_from cur r)
  = filter (fun l => negb (str_eqb l []))
      (match str_split LF r with
       | h :: t => (rev cur ++ h) :: t
       | [] => []
       end).
Proof.
  revert cur; induction r as [|c r IH]; intros cur H.
  - cbn [splitlines_from str_split]. rewrite app_nil_r.
    destruct cur as [|x cur]; [reflexivity|].
    cbn [filter]. destruct (rev (x :: cur)) eqn:E; [|reflexivity].
    apply (f_equal (@List.length N)) in E. rewrite length_rev in E.
    discriminate.
  - assert (Hr : forall c', In c' r -> islinebreak c' = true -> c' = LF)
      by (intros c' Hin; apply H; now right).
    pose proof (str_split_nonempty LF r) as Hne.
    destruct (islinebreak c) eqn:B.
    + rewrite (H c (or_introl eq_refl) B), splitlines_from_LF.
      cbn [str_split]. rewrite N.eqb_refl, app_nil_r.
      cbn [filter]. rewrite (IH [] Hr). cbn [rev app].
      destruct (str_split LF r); [contradiction|reflexivity].
    + assert (Hc : (c =? LF) = false).
      { apply N.eqb_neq. intros ->. discriminate. }
      cbn [splitlines_from str_split]. rewrite B, Hc, (IH (c :: cur) Hr).
      destruct (str_split LF r) as [|h t]; [contradiction|].
      cbn [rev]. now rewrite <- app_assoc.
Qed.

Lemma splitlines_vs_split (r : str) :
  (forall c, In c r -> islinebreak c = true -> c = LF) ->
  filter (fun l => negb (str_eqb l [])) (splitlines r)
  = spec_non_empty_lines r.
Proof.
  intros H. unfold splitlines, spec_non_empty_lines.
  rewrite splitlines_from_vs_split by assumption.
  pose proof (str_split_nonempty LF r) as Hne.
  destruct (str_split LF r); [contradiction|reflexivity].
Qed.

(** ** Path names *)

Lemma str_split_app (sep : N) (a b : str) :
  str_split sep (a ++ sep :: b) = str_split sep a ++ str_split sep b.
Proof.
  induction a as [|c a IH]; simpl.
  - now rewrite N.eqb_refl.
  - destruct (c =? sep); [now rewrite IH|].
    rewrite IH. pose proof (str_split_nonempty sep a) as H.
    destruct (str_split sep a); [contradiction|reflexivity].
Qed.

Lemma str_split_plain (sep : N) (x : str) :
  contains sep x = false -> str_split sep x = [x].
Proof.
  unfold contains. induction x as [|c x IH]; simpl; [reflexivity|].
  intros H. apply orb_false_iff in H as [H1 H2].
  rewrite N.eqb_sym, H1, (IH H2). reflexivity.
Qed.

Lemma str_split_join_sep (sep : N) (comps : list str) :
  comps <> [] ->
  Forall (fun c => contains sep c = false) comps ->
  str_split sep (join_sep sep comps) = comps.
Proof.
  intros Hne H. induction H as [|c comps Hc H IH]; [contradiction|].
  destruct comps as [|c' comps].
  - simpl. now apply str_split_plain.
  - change (join_sep sep (c :: c' :: comps))
      with (c ++ sep :: join_sep sep (c' :: comps)).
    rewrite str_split_app, (str_split_plain _ _ Hc), IH by discriminate.
    reflexivity.
Qed.

Lemma str_split_no_sep (sep : N) (s : str) :
  Forall (fun c => contains sep c = false) (str_split sep s).
Proof.
  induction s as [|c s IH]; simpl.
  - constructor; [reflexivity|constructor].
  - destruct (c =? sep) eqn:E.
    + constructor; [reflexivity|exact IH].
    + destruct (str_split sep s) as [|h t]; constructor.
      * unfold contains. simpl. now rewrite N.eqb_sym, E.
      * constructor.
      * inversion IH; subst. unfold contains in *. simpl.
        now rewrite N.eqb_sym, E.
      * now inversion IH.
Qed.

Lemma plain_name_inv (x : str) :
  plain_name x = true ->
  str_eqb x [] = false /\ str_eqb x [DOT] = false
  /\ str_eqb x [DOT; DOT] = false /\ contains SLASH x = false.
Proof.
  unfold plain_name. rewrite !andb_true_iff, !negb_true_iff. tauto.
Qed.

Lemma plain_name_not_abs (x : str) :
  plain_name x = true -> startswith x [SLASH] = false.
Proof.
  intros H. apply plain_name_inv in H as (H0 & _ & _ & H3).
  destruct x as [|c x]; [reflexivity|].
  unfold contains in H3. cbn [existsb] in H3.
  apply orb_false_iff in H3 as [H3 _].
  cbn [startswith]. now rewrite N.eqb_sym, H3.
Qed.

Lemma namei_step_plain (a : list str) (x : str) :
  plain_name x = true -> namei_step a x = a ++ [x].
Proof.
  intros H. apply plain_name_inv in H as (H0 & H1 & H2 & _).
  unfold namei_step. now rewrite H0, H1, H2.
Qed.

Lemma fold_namei_plain (l a : list str) :
  forallb plain_name l = true -> fold_left namei_step l a = a ++ l.
Proof.
  revert a; induction l as [|x l IH]; intros a H; simpl.
  - now rewrite app_nil_r.
  - simpl in H. apply andb_true_iff in H as [Hx Hl].
    rewrite namei_step_plain, IH, <- app_assoc by assumption. reflexivity.
Qed.

(** Resolving [join d x] for a path [d] and a single name [x]: first [d],
    then one step into [x]. *)
Lemma fold_split_join (g p : str) (a : list str) :
  g <> [] -> startswith p [SLASH] = false ->
  fold_left namei_step (str_split SLASH (join g p)) a
  = fold_left namei_step (str_split SLASH p)
      (fold_left namei_step (str_split SLASH g) a).
Proof.
  intros Hg Hp. unfold join. rewrite Hp.
  destruct g as [|c g]; [contradiction|]. cbv beta iota. rewrite orb_false_l.
  destruct (endswith (c :: g) [SLASH]) eqn:E.
  - apply endswith_slash_inv in E as [g' E]. rewrite E, <- app_assoc. simpl.
    rewrite !str_split_app, !fold_left_app. reflexivity.
  - rewrite str_split_app, fold_left_app. reflexivity.
Qed.

Lemma isabs_join (g p : str) :
  g <> [] -> startswith p [SLASH] = false -> isabs (join g p) = isabs g.
Proof.
  intros Hg Hp. unfold join, isabs. rewrite Hp.
  destruct g as [|c g]; [contradiction|]. cbv beta iota. rewrite orb_false_l.
  destruct (endswith (c :: g) [SLASH]); reflexivity.
Qed.

Lemma namei_join (e : env) (d x : str) :
  plain_name x = true -> namei e (join d x) = namei e d ++ [x].
Proof.
  intros Hx. pose proof (plain_name_not_abs x Hx) as Hp.
  pose proof (plain_name_inv x Hx) as (_ & _ & _ & Hs).
  destruct d as [|c d].
  - unfold join. rewrite Hp. simpl. unfold namei, isabs. rewrite Hp.
    rewrite (str_split_plain _ _ Hs). simpl.
    now apply namei_step_plain.
  - unfold namei. rewrite isabs_join, fold_split_join by (assumption || discriminate).
    rewrite (str_split_plain _ _ Hs). simpl.
    now apply namei_step_plain.
Qed.

Lemma Forall_removelast {A} (P : A -> Prop) (l : list A) :
  Forall P l -> Forall P (removelast l).
Proof.
  induction 1 as [|x l Hx H IH]; simpl; [constructor|].
  destruct l; [constructor|]. constructor; assumption.
Qed.

Lemma Forall_last {A} (P : A -> Prop) (l : list A) (d : A) :
  l <> [] -> Forall P l -> P (last l d).
Proof.
  intros Hne H. induction H as [|x l Hx H IH]; [contradiction|].
  destruct l; [exact Hx|]. apply IH. discriminate.
Qed.

(** On an absolute path the loop of [normpath] walks as the operating
    system does. *)
Lemma normpath_step_abs (stack : list str) (comp : str) :
  Forall (fun c => plain_name c = true) stack ->
  normpath_step true stack comp = namei_step stack comp.
Proof.
  intros H. unfold normpath_step, namei_step.
  destruct (str_eqb comp [] || str_eqb comp [DOT]); [reflexivity|].
  destruct (str_eqb comp [DOT; DOT]); [|reflexivity].
  cbn [negb andb orb]. destruct stack as [|s stack]; [reflexivity|].
  assert (Hl : plain_name (last (s :: stack) []) = true)
    by (apply (Forall_last _ _ []) in H; [exact H|discriminate]).
  apply plain_name_inv in Hl as (_ & _ & Hl & _). now rewrite Hl.
Qed.

Lemma namei_step_keeps_plain (stack : list str) (comp : str) :
  Forall (fun c => plain_name c = true) stack ->
  contains SLASH comp = false ->
  Forall (fun c => plain_name c = true) (namei_step stack comp).
Proof.
  intros H Hs. unfold namei_step.
  destruct (str_eqb comp []) eqn:E0; [exact H|].
  destruct (str_eqb comp [DOT]) eqn:E1; [exact H|]. cbn [orb].
  destruct (str_eqb comp [DOT; DOT]) eqn:E2; [now apply Forall_removelast|].
  apply Forall_app. split; [exact H|]. constructor; [|constructor].
  unfold plain_name. now rewrite E0, E1, E2, Hs.
Qed.

Lemma fold_normpath_abs (comps stack : list str) :
  Forall (fun c => plain_name c = true) stack ->
  Forall (fun c => contains SLASH c = false) comps ->
  fold_left (normpath_step true) comps stack = fold_left namei_step comps stack
  /\ Forall (fun c => plain_name c = true) (fold_left namei_step comps stack).
Proof.
  intros Hs Hc. revert stack Hs.
  induction Hc as [|c comps Hc _ IH]; intros stack Hs; simpl.
  - now split.
  - rewrite normpath_step_abs by assumption.
    apply IH. now apply namei_step_keeps_plain.
Qed.

Lemma Forall_plain_forallb (l : list str) :
  Forall (fun c => plain_name c = true) l <-> forallb plain_name l = true.
Proof. symmetry. rewrite forallb_forall, Forall_forall. reflexivity. Qed.

Lemma fold_split_join_sep (comps : list str) :
  Forall (fun c => plain_name c = true) comps ->
  fold_left namei_step (str_split SLASH (join_sep SLASH comps)) [] = comps.
Proof.
  intros H. destruct comps as [|c comps]; [reflexivity|].
  rewrite str_split_join_sep.
  - apply (fold_namei_plain _ []). now apply Forall_plain_forallb.
  - discriminate.
  - eapply Forall_impl; [|exact H]. intros a Ha.
    now apply plain_name_inv in Ha.
Qed.

Lemma namei_normpath (e : env) (q : str) :
  isabs q = true -> namei e (normpath q) = namei e q.
Proof.
  intros Hq. unfold namei at 2. rewrite Hq.
  destruct (fold_normpath_abs (str_split SLASH q) [])
    as [E P]; [constructor|apply str_split_no_sep|].
  unfold normpath. destruct q as [|c q]; [discriminate|].
  unfold isabs in Hq. rewrite Hq, E. cbn [andb].
  set (comps := fold_left namei_step (str_split SLASH (c :: q)) []) in *.
  pose proof (fold_split_join_sep comps P) as J.
  destruct (startswith (c :: q) [SLASH; SLASH]
            && negb (startswith (c :: q) [SLASH; SLASH; SLASH]));
    cbn [repeat app]; unfold namei, isabs; cbn [startswith];
    rewrite N.eqb_refl; cbn [andb str_split]; rewrite !N.eqb_refl;
    cbn [fold_left]; exact J.
Qed.

Lemma fold_split_getcwd (e : env) :
  wf_cwd e -> fold_left namei_step (str_split SLASH (getcwd e)) [] = cwd e.
Proof.
  intros H. unfold getcwd. cbn [str_split]. rewrite N.eqb_refl.
  cbn [fold_left]. apply fold_split_join_sep. now apply Forall_plain_forallb.
Qed.

(** [abspath] names the place the operating system resolves the path to. *)
Lemma namei_abspath (e : env) (p : str) :
  wf_cwd e -> namei e (abspath e p) = namei e p.
Proof.
  intros H. unfold abspath. destruct (isabs p) eqn:A.
  - now apply namei_normpath.
  - assert (G : getcwd e <> []) by discriminate.
    rewrite namei_normpath by now rewrite isabs_join.
    unfold namei. rewrite isabs_join, A by assumption.
    rewrite fold_split_join, fold_split_getcwd by assumption.
    reflexivity.
Qed.

Lemma plain_rqv : plain_name (py "restless_quantum_volume") = true.
Proof. reflexivity. Qed.
Lemma plain_version_txt : plain_name (py "VERSION.txt") = true.
Proof. reflexivity. Qed.
Lemma plain_readme_md : plain_name (py "README.md") = true.
Proof. reflexivity. Qed.
Lemma plain_requirements_txt : plain_name (py "requirements.txt") = true.
Proof. reflexivity. Qed.

(** The version file and the README are opened below the directory of the
    script, whatever the working directory is. *)
Lemma version_path_at_root (e : env) :
  wf_cwd e ->
  namei e (version_path e)
  = root e ++ [py "restless_quantum_volume"; py "VERSION.txt"].
Proof.
  intros H. unfold version_path, root.
  rewrite namei_abspath, !namei_join, <- app_assoc
    by (assumption || reflexivity).
  reflexivity.
Qed.

Lemma README_PATH_at_root (e : env) :
  wf_cwd e -> namei e (README_PATH e) = root e ++ [py "README.md"].
Proof.
  intros H. unfold README_PATH, root.
  rewrite namei_join, namei_abspath by (assumption || reflexivity).
  reflexivity.
Qed.

(** The requirements file is opened below the working directory. *)
Lemma requirements_at_cwd (e : env) :
  namei e (py "requirements.txt") = cwd e ++ [py "requirements.txt"].
Proof. reflexivity. Qed.

(** ** The run *)

(** The run, by the outcome of the three reads. *)
Lemma run_cases (e : env) :
  run e =
  match read_result e (py "requirements.txt") with
  | inl x => ([EvOpen (namei e (py "requirements.txt"))], inl x)
  | inr r =>
      match read_result e (version_path e) with
      | inl x => ([EvOpen (namei e (py "requirements.txt"));
                   EvOpen (namei e (version_path e))], inl x)
      | inr v =>
          match read_result e (README_PATH e) with
          | inl x => ([EvOpen (namei e (py "requirements.txt"));
                       EvOpen (namei e (version_path e));
                       EvOpen (namei e (README_PATH e))], inl x)
          | inr m =>
              let d := kwargs (splitlines r) (rstrip v) m
                              (find_packages_in e [py "test*"]) in
              ([EvOpen (namei e (py "requirements.txt"));
                EvOpen (namei e (version_path e));
                EvOpen (namei e (README_PATH e));
                EvScan (cwd e);
                EvSetup d], inr d)
          end
      end
  end.
Proof.
  unfold run, setup_py, open_read, find_packages, setup, bind, emit, raise,
    ret.
  cbn [app].
  destruct (read_result e (py "requirements.txt")); [reflexivity|].
  cbn [app].
  destruct (read_result e (version_path e)); [reflexivity|].
  cbn [app].
  destruct (read_result e (README_PATH e)); reflexivity.
Qed.

(** A record comes out exactly when the three reads gave text. *)
Lemma outcome_inr (e : env) (d : descriptor) :
  outcome e = inr d <->
  exists r v m,
    read_result e (py "requirements.txt") = inr r
    /\ read_result e (version_path e) = inr v
    /\ read_result e (README_PATH e) = inr m
    /\ d = kwargs (splitlines r) (rstrip v) m
                  (find_packages_in e [py "test*"]).
Proof.
  unfold outcome. rewrite run_cases.
  destruct (read_result e (py "requirements.txt")) as [x|r].
  { split; [discriminate|]. intros (? & ? & ? & H & _). discriminate. }
  destruct (read_result e (version_path e)) as [x|v].
  { split; [discriminate|]. intros (? & ? & ? & _ & H & _). discriminate. }
  destruct (read_result e (README_PATH e)) as [x|m].
  { split; [discriminate|]. intros (? & ? & ? & _ & _ & H & _). discriminate. }
  cbn [snd]. split.
  - intros H. injection H as <-. now exists r, v, m.
  - intros (r' & v' & m' & Hr & Hv & Hm & ->). congruence.
Qed.

(** Text is read from a place exactly when a readable file is there. *)
Lemma read_result_text (e : env) (p t : str) :
  read_result e p = inr t <->
  lookup (fs e) (namei e p) = Found (File (Text t)).
Proof.
  unfold read_result.
  destruct (lookup (fs e) (namei e p)) as [| |[[t'| |]|es]];
    split; intros H; try discriminate; congruence.
Qed.

Lemma read_result_absent (e : env) (p : str) :
  lookup (fs e) (namei e p) = NoEntry ->
  read_result e p = inl (FileNotFoundError p).
Proof. unfold read_result. now intros ->. Qed.

(** ** Package discovery *)

Lemma node_nested_ind (P : node -> Prop) :
  (forall c, P (File c)) ->
  (forall es, Forall (fun en => P (snd en)) es -> P (Dir es)) ->
  forall n, P n.
Proof.
  intros Hf Hd.
  refine (fix F (n : node) : P n :=
            match n with
            | File c => Hf c
            | Dir es =>
                Hd es ((fix G (l : list (str * node))
                        : Forall (fun en => P (snd en)) l :=
                          match l with
                          | [] => Forall_nil _
                          | en :: l' =>
                              Forall_cons _
                                (match en as en0 return P (snd en0) with
                                 | (_, v) => F v
                                 end) (G l')
                          end) es)
            end).
Qed.

Lemma fnmatch_star_any (n : str) : fnmatchcase_pat [STAR] n = true.
Proof.
  induction n as [|c n IH]; [reflexivity|].
  cbn [fnmatchcase_pat] in *. rewrite N.eqb_refl in *.
  cbn beta iota. rewrite orb_false_l. exact IH.
Qed.

(** A pattern of plain characters closed by a star asks for a prefix. *)
Lemma fnmatch_prefix_star (lit n : str) :
  forallb (fun p => negb (p =? STAR) && negb (p =? QMARK)) lit = true ->
  fnmatchcase_pat (lit ++ [STAR]) n = startswith n lit.
Proof.
  revert n; induction lit as [|p lit IH]; intros n H.
  - apply fnmatch_star_any.
  - cbn [forallb] in H. apply andb_true_iff in H as [Hp Hl].
    apply andb_true_iff in Hp as [Hs Hq].
    apply negb_true_iff in Hs, Hq.
    cbn [app fnmatchcase_pat]. rewrite Hs.
    destruct n as [|c n]; [reflexivity|].
    cbn [startswith]. rewrite Hq, orb_false_l, IH, (N.eqb_sym p c) by assumption.
    reflexivity.
Qed.

Lemma fnmatch_test_star (n : str) :
  fnmatchcase n (py "test*") = startswith n (py "test").
Proof. exact (fnmatch_prefix_star (py "test") n eq_refl). Qed.

Lemma package_name_cons (top : str) (rest : list str) :
  exists tail, package_name (top :: rest) = top ++ tail.
Proof.
  unfold package_name. destruct rest as [|r rest].
  - exists []. simpl. now rewrite app_nil_r.
  - exists (DOT :: join_sep DOT (r :: rest)). reflexivity.
Qed.

(** Every name [find_iter] yields is the dotted path of a chain of
    directories without dots in their names, and passes the exclude
    filter. *)
Lemma find_iter_in (exclude include : list str) (n : node) :
  forall (rel : list str) (pkg : str),
    In pkg (find_iter exclude include rel n) ->
    exists suffix,
      suffix <> []
      /\ pkg = package_name (rel ++ suffix)
      /\ Forall (fun c => contains DOT c = false) suffix
      /\ filter_call exclude pkg = false.
Proof.
  induction n as [c|es IH] using node_nested_ind; intros rel pkg H.
  - destruct H.
  - cbn [find_iter] in H. apply in_app_or in H as [H|H];
      apply in_flat_map in H as [[dir sub] [Hin H]];
      (destruct sub as [c|es']; [destruct H|]).
    + destruct (valid_package dir es') eqn:V; [|destruct H].
      destruct (filter_call include (package_name (rel ++ [dir])));
        [|destruct H].
      destruct (filter_call exclude (package_name (rel ++ [dir]))) eqn:X;
        [destruct H|].
      destruct H as [<-|[]].
      unfold valid_package in V. apply andb_true_iff in V as [V _].
      apply negb_true_iff in V.
      exists [dir]. repeat split; try assumption; try discriminate.
      constructor; [exact V|constructor].
    + destruct (valid_package dir es') eqn:V; [|destruct H].
      destruct (pruned exclude (package_name (rel ++ [dir]))); [destruct H|].
      cbn [negb andb] in H.
      rewrite Forall_forall in IH. specialize (IH _ Hin). cbn [snd] in IH.
      destruct (IH _ _ H) as (suffix & Hne & -> & Hd & Hx).
      unfold valid_package in V. apply andb_true_iff in V as [V _].
      apply negb_true_iff in V.
      exists (dir :: suffix). repeat split; try assumption; try discriminate.
      * now rewrite <- app_assoc.
      * constructor; assumption.
Qed.

(** With [exclude=['test*']] no name found begins with "test", and so the
    top-level directory of no package found does. *)
Lemma find_packages_in_test (e : env) (pkg : str) :
  In pkg (find_packages_in e [py "test*"]) ->
  startswith pkg (py "test") = false
  /\ exists top rest,
      pkg = package_name (top :: rest)
      /\ startswith top (py "test") = false
      /\ Forall (fun c => contains DOT c = false) (top :: rest).
Proof.
  unfold find_packages_in. destruct (lookup (fs e) (cwd e)) as [| |n];
    try (intros []).
  intros H. apply find_iter_in in H as (suffix & Hne & -> & Hd & Hx).
  cbn [app] in *. unfold filter_call in Hx.
  rewrite existsb_app in Hx. apply orb_false_iff in Hx as [_ Hx].
  cbn [existsb] in Hx. rewrite orb_false_r, fnmatch_test_star in Hx.
  split; [exact Hx|].
  destruct suffix as [|top rest]; [contradiction|].
  exists top, rest. repeat split; try assumption.
  destruct (startswith top (py "test")) eqn:T; [|reflexivity].
  destruct (package_name_cons top rest) as [tail E].
  rewrite E, (startswith_app _ tail _ T) in Hx. discriminate.
Qed.

(** ** The claims *)

Lemma sample_run :
  outcome (launched_in_root sample_checkout) = inr sample_descriptor.
Proof. vm_compute. reflexivity. Qed.

(** C1, as stated, fails: in a well-formed root directory (the three files
    present and not empty, the build launched there) whose requirements
    file has a blank line, [install_requires] keeps the blank line as an
    empty entry and so is not the sequence of the non-empty lines. *)
Lemma blank_requirement_line_kept :
  let e := launched_in_root sample_checkout in
  root e = cwd e
  /\ lookup (fs e) (root e ++ [py "requirements.txt"])
     = Found (File (Text sample_requirements))
  /\ lookup (fs e) (root e ++ [py "restless_quantum_volume"; py "VERSION.txt"])
     = Found (File (Text sample_version))
  /\ lookup (fs e) (root e ++ [py "README.md"])
     = Found (File (Text sample_readme))
  /\ exists d,
      outcome e = inr d
      /\ install_requires d = [py "numpy"; []; py "scipy"]
      /\ spec_non_empty_lines sample_requirements = [py "numpy"; py "scipy"]
      /\ install_requires d <> spec_non_empty_lines sample_requirements.
Proof.
  cbv zeta. repeat split; try (vm_compute; reflexivity).
  exists sample_descriptor. repeat split; try (vm_compute; reflexivity).
  vm_compute. discriminate.
Qed.

(** C1, amended: for a root directory that holds the three files, with the
    build launched in it, the record is assembled and [install_requires] is
    the sequence of all the lines of the requirements file as
    [str.splitlines] cuts them, in file order, each passed through as it
    is; a file written as lines closed by line feeds gives back exactly
    those lines, the empty ones included, and leaving the empty entries out
    gives the non-empty lines of the file. *)
Theorem install_requires_all_lines (e : env) (r v m : str) :
  wf_cwd e ->
  root e = cwd e ->
  lookup (fs e) (root e ++ [py "requirements.txt"]) = Found (File (Text r)) ->
  lookup (fs e) (root e ++ [py "restless_quantum_volume"; py "VERSION.txt"])
  = Found (File (Text v)) ->
  lookup (fs e) (root e ++ [py "README.md"]) = Found (File (Text m)) ->
  exists d,
    outcome e = inr d
    /\ install_requires d = splitlines r
    /\ (forall ls,
        Forall (fun l => forallb (fun c => negb (islinebreak c)) l = true) ls ->
        r = List.concat (map (fun l => l ++ [LF]) ls) ->
        install_requires d = ls)
    /\ ((forall c, In c r -> islinebreak c = true -> c = LF) ->
        filter (fun l => negb (str_eqb l [])) (install_requires d)
        = spec_non_empty_lines r).
Proof.
  intros W C Hr Hv Hm.
  rewrite C, <- requirements_at_cwd in Hr.
  rewrite <- version_path_at_root in Hv by assumption.
  rewrite <- README_PATH_at_root in Hm by assumption.
  apply read_result_text in Hr, Hv, Hm.
  eexists. split; [|split; [|split]].
  - apply outcome_inr. exists r, v, m. repeat split; eassumption.
  - reflexivity.
  - intros ls Hls ->. cbn [install_requires kwargs].
    now apply splitlines_lines.
  - intros H. cbn [install_requires kwargs]. now apply splitlines_vs_split.
Qed.

Lemma install_requires_all_lines_witness :
  exists d,
    outcome (launched_in_root sample_checkout) = inr d
    /\ install_requires d = splitlines sample_requirements
    /\ (forall ls,
        Forall (fun l => forallb (fun c => negb (islinebreak c)) l = true) ls ->
        sample_requirements = List.concat (map (fun l => l ++ [LF]) ls) ->
        install_requires d = ls)
    /\ ((forall c, In c sample_requirements -> islinebreak c = true -> c = LF) ->
        filter (fun l => negb (str_eqb l [])) (install_requires d)
        = spec_non_empty_lines sample_requirements).
Proof.
  apply (install_requires_all_lines (launched_in_root sample_checkout)
           sample_requirements sample_version sample_readme);
    vm_compute; reflexivity.
Defined.

(** C2: the code at the failing input.  The build is launched in /tmp on
    the script /proj/setup.py.  The root directory /proj holds a readable
    requirements file, yet the only file opened is
    /tmp/requirements.txt, and the process ends in [FileNotFoundError]. *)
Theorem requirements_opened_from_cwd :
  let e := launched_elsewhere sample_checkout in
  root e = [py "proj"]
  /\ lookup (fs e) (root e ++ [py "requirements.txt"])
     = Found (File (Text sample_requirements))
  /\ trace e = [EvOpen [py "tmp"; py "requirements.txt"]]
  /\ outcome e = inl (FileNotFoundError (py "requirements.txt")).
Proof. cbv zeta. repeat split; vm_compute; reflexivity. Qed.

(** What the record holds of the version file below the root. *)
Lemma version_of_root_file (e : env) (t : str) (d : descriptor) :
  wf_cwd e ->
  lookup (fs e) (root e ++ [py "restless_quantum_volume"; py "VERSION.txt"])
  = Found (File (Text t)) ->
  outcome e = inr d ->
  version d = rstrip t.
Proof.
  intros W Ht Hd. apply outcome_inr in Hd as (r & v & m & _ & Hv & _ & ->).
  apply read_result_text in Hv. rewrite version_path_at_root in Hv by assumption.
  cbn [version kwargs]. congruence.
Qed.

(** C3: whatever the version file holds, the [version] of the record is
    that text without its trailing whitespace: the text is the version
    followed by whitespace only, and the version does not end in
    whitespace.  For the file "1.2.3\n" the version is "1.2.3". *)
Theorem version_is_stripped (e : env) (t : str) (d : descriptor) :
  wf_cwd e ->
  lookup (fs e) (root e ++ [py "restless_quantum_volume"; py "VERSION.txt"])
  = Found (File (Text t)) ->
  outcome e = inr d ->
  version d = rstrip t
  /\ (exists w, t = version d ++ w /\ forallb isspace w = true)
  /\ (forall s c, version d = s ++ [c] -> isspace c = false)
  /\ (t = py "1.2.3" ++ [LF] -> version d = py "1.2.3").
Proof.
  intros W Ht Hd. rewrite (version_of_root_file e t d W Ht Hd).
  destruct (rstrip_spec t) as [H1 H2].
  repeat split; try assumption.
  intros ->. reflexivity.
Qed.

Lemma version_is_stripped_witness :
  version sample_descriptor = rstrip (py "1.2.3" ++ [LF])
  /\ (exists w, py "1.2.3" ++ [LF] = version sample_descriptor ++ w
                /\ forallb isspace w = true)
  /\ (forall s c, version sample_descriptor = s ++ [c] -> isspace c = false)
  /\ (py "1.2.3" ++ [LF] = py "1.2.3" ++ [LF]
      -> version sample_descriptor = py "1.2.3").
Proof.
  apply (version_is_stripped (launched_in_root sample_checkout)
           (py "1.2.3" ++ [LF]) sample_descriptor);
    vm_compute; reflexivity.
Defined.

Lemma read_result_not_dir (e : env) (p : str) :
  lookup (fs e) (namei e p) = NotDir ->
  read_result e p = inl (NotADirectoryError p).
Proof. unfold read_result. now intros ->. Qed.

(** C4, as stated, fails: [restless_quantum_volume] is a regular file, so
    there is no version file below the root; the requirements file and the
    README are in place and readable.  The requirements are read, and the
    process ends in [NotADirectoryError] on the version path, which is not
    a file-not-found error. *)
Lemma absent_version_not_a_directory :
  let e := launched_in_root checkout_package_is_file in
  lookup (fs e) (root e ++ [py "restless_quantum_volume"; py "VERSION.txt"])
  = NotDir
  /\ read_result e (py "requirements.txt") = inr sample_requirements
  /\ read_result e (README_PATH e) = inr sample_readme
  /\ outcome e = inl (NotADirectoryError (version_path e))
  /\ forall p, outcome e <> inl (FileNotFoundError p).
Proof.
  cbv zeta. repeat split; try (vm_compute; reflexivity).
  intros p H. vm_compute in H. discriminate.
Qed.

(** C4, amended: when there is no version file below the root, [setup] is
    never called and the process ends in the exception of the first read
    that fails.  With the requirements read, that is the version read: a
    [FileNotFoundError] when a component of the version path has no entry
    (the file, or the directory [restless_quantum_volume], is missing), a
    [NotADirectoryError] when a component on the way is a regular file.  A
    failing requirements read ends the process before, with its own
    exception. *)
Theorem absent_version_aborts (e : env) :
  wf_cwd e ->
  lookup (fs e) (root e ++ [py "restless_quantum_volume"; py "VERSION.txt"])
  = NoEntry
  \/ lookup (fs e) (root e ++ [py "restless_quantum_volume"; py "VERSION.txt"])
     = NotDir ->
  (forall d, ~ In (EvSetup d) (trace e))
  /\ (forall r,
        read_result e (py "requirements.txt") = inr r ->
        lookup (fs e)
               (root e ++ [py "restless_quantum_volume"; py "VERSION.txt"])
        = NoEntry ->
        outcome e = inl (FileNotFoundError (version_path e)))
  /\ (forall r,
        read_result e (py "requirements.txt") = inr r ->
        lookup (fs e)
               (root e ++ [py "restless_quantum_volume"; py "VERSION.txt"])
        = NotDir ->
        outcome e = inl (NotADirectoryError (version_path e)))
  /\ (forall x,
        read_result e (py "requirements.txt") = inl x ->
        outcome e = inl x).
Proof.
  intros W H. rewrite <- version_path_at_root in * by assumption.
  unfold trace, outcome. rewrite run_cases.
  assert (V : exists x, read_result e (version_path e) = inl x).
  { destruct H as [H|H];
      [apply read_result_absent in H|apply read_result_not_dir in H];
      eauto. }
  destruct V as [x V]. repeat split.
  - rewrite V. destruct (read_result e (py "requirements.txt"));
      cbn [fst]; intros d Hin; cbn [In] in Hin;
      repeat (destruct Hin as [Hin|Hin]; [discriminate|]); exact Hin.
  - intros r -> N. now rewrite (read_result_absent _ _ N).
  - intros r -> N. now rewrite (read_result_not_dir _ _ N).
  - intros x0 ->. reflexivity.
Qed.

Lemma absent_version_aborts_witness :
  let e := launched_in_root
             (checkout (Text sample_requirements) None (Text sample_readme)) in
  (forall d, ~ In (EvSetup d) (trace e))
  /\ (forall r,
        read_result e (py "requirements.txt") = inr r ->
        lookup (fs e)
               (root e ++ [py "restless_quantum_volume"; py "VERSION.txt"])
        = NoEntry ->
        outcome e = inl (FileNotFoundError (version_path e)))
  /\ (forall r,
        read_result e (py "requirements.txt") = inr r ->
        lookup (fs e)
               (root e ++ [py "restless_quantum_volume"; py "VERSION.txt"])
        = NotDir ->
        outcome e = inl (NotADirectoryError (version_path e)))
  /\ (forall x,
        read_result e (py "requirements.txt") = inl x ->
        outcome e = inl x).
Proof.
  apply (absent_version_aborts
           (launched_in_root
              (checkout (Text sample_requirements) None (Text sample_readme)))).
  - vm_compute. reflexivity.
  - left. vm_compute. reflexivity.
Defined.

(** C5, as stated, fails: a version file that holds a newline only gives a
    record, handed to [setup], whose version is the empty string. *)
Lemma blank_version_file_empty_version :
  let e := launched_in_root
             (checkout (Text sample_requirements) (Some (Text [LF]))
                       (Text sample_readme)) in
  exists d, outcome e = inr d /\ In (EvSetup d) (trace e) /\ version d = [].
Proof.
  cbv zeta. eexists. split; [vm_compute; reflexivity|]. split.
  - vm_compute. do 4 right. left. reflexivity.
  - reflexivity.
Qed.

(** C5, amended: in every record assembled the version does not end in
    whitespace, and it is empty exactly when the version file holds
    nothing but whitespace. *)
Theorem version_trimmed (e : env) (t : str) (d : descriptor) :
  wf_cwd e ->
  lookup (fs e) (root e ++ [py "restless_quantum_volume"; py "VERSION.txt"])
  = Found (File (Text t)) ->
  outcome e = inr d ->
  (forall s c, version d = s ++ [c] -> isspace c = false)
  /\ (version d = [] <-> forallb isspace t = true).
Proof.
  intros W Ht Hd. rewrite (version_of_root_file e t d W Ht Hd).
  split; [apply rstrip_spec|apply rstrip_empty_iff].
Qed.

Lemma version_trimmed_witness :
  (forall s c, version sample_descriptor = s ++ [c] -> isspace c = false)
  /\ (version sample_descriptor = [] <-> forallb isspace sample_version = true).
Proof.
  apply (version_trimmed (launched_in_root sample_checkout)
           sample_version sample_descriptor);
    vm_compute; reflexivity.
Defined.

(** C6, as stated, fails: the directory [tests] inside the package
    directory has a name that begins with "test", and its package is in
    [packages]. *)
Lemma nested_tests_package_found :
  let e := launched_in_root sample_checkout in
  exists d,
    outcome e = inr d
    /\ In (package_name [py "restless_quantum_volume"; py "tests"]) (packages d)
    /\ startswith (py "tests") (py "test") = true.
Proof.
  cbv zeta. exists sample_descriptor. split; [apply sample_run|]. split.
  - right. left. reflexivity.
  - reflexivity.
Qed.

(** C6, amended: no package whose dotted name begins with "test" is in
    [packages]: every package there is the dotted path of directories
    below the scanned directory, the first of which has a name that does
    not begin with "test".  Directories named test... at the top level,
    and all below them, are left out; one nested in another package is
    not. *)
Theorem packages_not_under_test (e : env) (d : descriptor) (pkg : str) :
  outcome e = inr d ->
  In pkg (packages d) ->
  startswith pkg (py "test") = false
  /\ exists top rest,
      pkg = package_name (top :: rest)
      /\ startswith top (py "test") = false
      /\ Forall (fun c => contains DOT c = false) (top :: rest).
Proof.
  intros Hd Hin. apply outcome_inr in Hd as (r & v & m & _ & _ & _ & ->).
  cbn [packages kwargs] in Hin. exact (find_packages_in_test e pkg Hin).
Qed.

Lemma packages_not_under_test_witness :
  startswith (py "restless_quantum_volume.tests") (py "test") = false
  /\ exists top rest,
      py "restless_quantum_volume.tests" = package_name (top :: rest)
      /\ startswith top (py "test") = false
      /\ Forall (fun c => contains DOT c = false) (top :: rest).
Proof.
  apply (packages_not_under_test (launched_in_root sample_checkout)
           sample_descriptor (py "restless_quantum_volume.tests")).
  - vm_compute. reflexivity.
  - right. left. reflexivity.
Defined.







(** C10: whatever the three files hold, the record that is assembled has
    the fixed name, license, content type, keywords, Python requirement,
    flags and classifiers written in the script. *)
Theorem static_metadata (e : env) (d : descriptor) :
  outcome e = inr d ->
  name d = py "Restless Quantum Volume"
  /\ license d = py "Apache 2.0"
  /\ long_description_content_type d = py "text/markdown"
  /\ keywords d = py "qiskit experiments"
  /\ python_requires d = py ">=3.7"
  /\ include_package_data d = true
  /\ zip_safe d = false
  /\ classifiers d = CLASSIFIERS.
Proof.
  intros Hd. apply outcome_inr in Hd as (r & v & m & _ & _ & _ & ->).
  repeat split.
Qed.

Lemma static_metadata_witness :
  name sample_descriptor = py "Restless Quantum Volume"
  /\ license sample_descriptor = py "Apache 2.0"
  /\ long_description_content_type sample_descriptor = py "text/markdown"
  /\ keywords sample_descriptor = py "qiskit experiments"
  /\ python_requires sample_descriptor = py ">=3.7"
  /\ include_package_data sample_descriptor = true
  /\ zip_safe sample_descriptor = false
  /\ classifiers sample_descriptor = CLASSIFIERS.
Proof.
  apply (static_metadata (launched_in_root sample_checkout) sample_descriptor).
  vm_compute. reflexivity.
Defined.

(** * Further properties of the script *)

(** ** The directory of the script *)

Lemma rfind_from_none (i : Z) (s : str) :
  contains SLASH s = false -> rfind_from i s = (-1)%Z.
Proof.
  unfold contains. revert i; induction s as [|c s IH]; intros i H;
    [reflexivity|].
  cbn [existsb] in H. apply orb_false_iff in H as [Hc Hs].
  cbn [rfind_from]. rewrite (IH _ Hs), N.eqb_sym, Hc. reflexivity.
Qed.

Lemma rfind_from_last (i : Z) (g name : str) :
  (0 <= i)%Z -> contains SLASH name = false ->
  rfind_from i (g ++ SLASH :: name) = (i + Z.of_nat (List.length g))%Z.
Proof.
  intros Hi Hn. revert i Hi; induction g as [|c g IH]; intros i Hi.
  - cbn [app rfind_from List.length]. rewrite (rfind_from_none _ _ Hn).
    cbn. rewrite Z.add_0_r. reflexivity.
  - cbn [app rfind_from]. rewrite IH by lia.
    destruct (0 <=? i + 1 + Z.of_nat (List.length g))%Z eqn:E.
    + cbn [List.length]. lia.
    + apply Z.leb_gt in E. lia.
Qed.

Lemma dirname_no_slash (p : str) : contains SLASH p = false -> dirname p = [].
Proof.
  intros H. unfold dirname, rfind_slash. rewrite (rfind_from_none _ _ H).
  reflexivity.
Qed.

(** The slice [p[:i]] of [dirname] on a path that ends in a name. *)
Lemma dirname_head (g name : str) :
  contains SLASH name = false ->
  firstn (Z.to_nat (rfind_slash (g ++ SLASH :: name) + 1)) (g ++ SLASH :: name)
  = g ++ [SLASH].
Proof.
  intros Hn. unfold rfind_slash. rewrite rfind_from_last by (lia || assumption).
  replace (Z.to_nat (0 + Z.of_nat (List.length g) + 1))
    with (List.length (g ++ [SLASH]) + 0)%nat
    by (rewrite length_app; cbn [List.length]; lia).
  change (g ++ SLASH :: name) with (g ++ [SLASH] ++ name).
  rewrite app_assoc, firstn_app_2. cbn [firstn]. now rewrite app_nil_r.
Qed.

Lemma fold_namei_empties (l a : list str) :
  Forall (fun c => c = []) l -> fold_left namei_step l a = a.
Proof.
  intros H; revert a; induction H as [|c l -> _ IH]; intros a; [reflexivity|].
  cbn [fold_left]. exact (IH a).
Qed.

Lemma str_split_slashes (w : str) :
  forallb (N.eqb SLASH) w = true ->
  Forall (fun c => c = []) (str_split SLASH w).
Proof.
  induction w as [|c w IH]; intros H.
  - repeat constructor.
  - cbn [forallb] in H. apply andb_true_iff in H as [Hc Hw].
    cbn [str_split]. rewrite N.eqb_sym, Hc. constructor; [reflexivity|].
    now apply IH.
Qed.

(** Slashes at the end of a path name do not change the place it names. *)
Lemma namei_trailing_slashes (e : env) (s w : str) :
  s <> [] -> forallb (N.eqb SLASH) w = true -> namei e (s ++ w) = namei e s.
Proof.
  intros Hs Hw. destruct w as [|c w]; [now rewrite app_nil_r|].
  cbn [forallb] in Hw. apply andb_true_iff in Hw as [Hc Hw].
  apply N.eqb_eq in Hc. subst c.
  unfold namei, isabs. rewrite startswith_nonempty_app by assumption.
  rewrite str_split_app, fold_left_app.
  apply fold_namei_empties. now apply str_split_slashes.
Qed.

Lemma namei_rstrip_slash (e : env) (s : str) :
  forallb (N.eqb SLASH) s = false -> namei e (rstrip_slash s) = namei e s.
Proof.
  intros H. unfold rstrip_slash.
  destruct (dropwhile_split (N.eqb SLASH) (rev s)) as [w [E F]].
  assert (Es : s = rev (dropwhile (N.eqb SLASH) (rev s)) ++ rev w).
  { rewrite <- rev_app_distr, <- E. symmetry. apply rev_involutive. }
  rewrite Es at 2. symmetry. apply namei_trailing_slashes.
  - intros N0. apply (f_equal (@rev N)) in N0. rewrite rev_involutive in N0.
    cbn [rev] in N0. apply dropwhile_all in N0.
    rewrite forallb_rev in N0. congruence.
  - now rewrite forallb_rev.
Qed.

(** [dirname] names the directory that holds the file the path ends in. *)
Lemma namei_dirname (e : env) (h name : str) :
  plain_name name = true ->
  h = [] \/ endswith h [SLASH] = true ->
  namei e (h ++ name) = namei e (dirname (h ++ name)) ++ [name].
Proof.
  intros Hn Hh. pose proof (plain_name_inv _ Hn) as (_ & _ & _ & Hs).
  destruct Hh as [->|Hh].
  - cbn [app]. rewrite (dirname_no_slash _ Hs).
    pose proof (namei_join e [] name Hn) as J. unfold join in J.
    rewrite (plain_name_not_abs _ Hn) in J. exact J.
  - apply endswith_slash_inv in Hh as [g ->]. rewrite <- app_assoc.
    cbn [app]. unfold dirname. rewrite (dirname_head g name Hs).
    assert (Hj : namei e (g ++ SLASH :: name) = namei e (g ++ [SLASH]) ++ [name]).
    { unfold namei, isabs.
      change (g ++ SLASH :: name) with (g ++ [SLASH] ++ name).
      rewrite app_assoc, startswith_nonempty_app by (now destruct g).
      rewrite <- app_assoc. cbn [app].
      rewrite !str_split_app, !fold_left_app, (str_split_plain _ _ Hs).
      cbn [str_split fold_left]. rewrite namei_step_plain by assumption.
      reflexivity. }
    rewrite Hj. f_equal.
    destruct (forallb (N.eqb SLASH) (g ++ [SLASH])) eqn:A.
    + destruct (g ++ [SLASH]); reflexivity.
    + replace (negb match g ++ [SLASH] with [] => true | _ :: _ => false end)
        with true by (now destruct g).
      cbn [negb andb]. symmetry. now apply namei_rstrip_slash.
Qed.

(** X1: started by its bare name ([python setup.py]), the script has the
    working directory as its root: the three files are all opened there. *)
Theorem bare_script_name_reads_cwd (e : env) :
  wf_cwd e ->
  contains SLASH (script e) = false ->
  root e = cwd e
  /\ namei e (py "requirements.txt") = cwd e ++ [py "requirements.txt"]
  /\ namei e (version_path e)
     = cwd e ++ [py "restless_quantum_volume"; py "VERSION.txt"]
  /\ namei e (README_PATH e) = cwd e ++ [py "README.md"].
Proof.
  intros W H.
  assert (R : root e = cwd e)
    by (unfold root; now rewrite (dirname_no_slash _ H)).
  rewrite version_path_at_root, README_PATH_at_root, R by assumption.
  repeat split.
Qed.

Lemma bare_script_name_reads_cwd_witness :
  let e := launched_in_root sample_checkout in
  root e = cwd e
  /\ namei e (py "requirements.txt") = cwd e ++ [py "requirements.txt"]
  /\ namei e (version_path e)
     = cwd e ++ [py "restless_quantum_volume"; py "VERSION.txt"]
  /\ namei e (README_PATH e) = cwd e ++ [py "README.md"].
Proof.
  apply (bare_script_name_reads_cwd (launched_in_root sample_checkout));
    vm_compute; reflexivity.
Defined.

(** X2: the root is the directory that holds the script: when [__file__]
    ends in a file name, the script lies at that name below the root, and
    the version file and the README are opened beside it, whatever the
    working directory is. *)
Theorem script_lies_in_root (e : env) (h name : str) :
  wf_cwd e ->
  plain_name name = true ->
  h = [] \/ endswith h [SLASH] = true ->
  script e = h ++ name ->
  namei e (script e) = root e ++ [name]
  /\ namei e (version_path e)
     = removelast (namei e (script e))
       ++ [py "restless_quantum_volume"; py "VERSION.txt"]
  /\ namei e (README_PATH e)
     = removelast (namei e (script e)) ++ [py "README.md"].
Proof.
  intros W Hn Hh Hs.
  assert (R : namei e (script e) = root e ++ [name])
    by (unfold root; rewrite Hs; now apply namei_dirname).
  rewrite R, removelast_last, version_path_at_root, README_PATH_at_root
    by assumption.
  repeat split.
Qed.

Lemma script_lies_in_root_witness :
  let e := launched_elsewhere sample_checkout in
  namei e (script e) = root e ++ [py "setup.py"]
  /\ namei e (version_path e)
     = removelast (namei e (script e))
       ++ [py "restless_quantum_volume"; py "VERSION.txt"]
  /\ namei e (README_PATH e)
     = removelast (namei e (script e)) ++ [py "README.md"].
Proof.
  apply (script_lies_in_root (launched_elsewhere sample_checkout)
           (py "/proj/") (py "setup.py")).
  - vm_compute. reflexivity.
  - reflexivity.
  - right. reflexivity.
  - reflexivity.
Defined.

(** X3: a run opens no file but these three: the requirements file in the
    working directory, the version file and the README below the root. *)
Theorem only_three_files_opened (e : env) (place : list str) :
  wf_cwd e ->
  In (EvOpen place) (trace e) ->
  place = cwd e ++ [py "requirements.txt"]
  \/ place = root e ++ [py "restless_quantum_volume"; py "VERSION.txt"]
  \/ place = root e ++ [py "README.md"].
Proof.
  intros W. unfold trace. rewrite run_cases.
  rewrite version_path_at_root, README_PATH_at_root, requirements_at_cwd
    by assumption.
  destruct (read_result e (py "requirements.txt"));
    [|destruct (read_result e (version_path e));
      [|destruct (read_result e (README_PATH e))]];
    cbn [fst In]; intros H;
    repeat (destruct H as [H|H]; [try discriminate; injection H as <-; tauto|]);
    destruct H.
Qed.

Lemma only_three_files_opened_witness :
  let e := launched_elsewhere
             (checkout (Text sample_requirements) None (Text sample_readme)) in
  [py "tmp"; py "requirements.txt"] = cwd e ++ [py "requirements.txt"]
  \/ [py "tmp"; py "requirements.txt"]
     = root e ++ [py "restless_quantum_volume"; py "VERSION.txt"]
  \/ [py "tmp"; py "requirements.txt"] = root e ++ [py "README.md"].
Proof.
  apply (only_three_files_opened
           (launched_elsewhere
              (checkout (Text sample_requirements) None (Text sample_readme)))
           [py "tmp"; py "requirements.txt"]).
  - vm_compute. reflexivity.
  - left. reflexivity.
Defined.

(** X4: a run that assembles the record does five things, in this order:
    it opens the requirements file, the version file and the README, scans
    the working directory for packages, and calls [setup] once, last. *)
Theorem successful_run_order (e : env) (d : descriptor) :
  wf_cwd e ->
  outcome e = inr d ->
  trace e =
  [ EvOpen (cwd e ++ [py "requirements.txt"]);
    EvOpen (root e ++ [py "restless_quantum_volume"; py "VERSION.txt"]);
    EvOpen (root e ++ [py "README.md"]);
    EvScan (cwd e);
    EvSetup d ].
Proof.
  intros W. unfold outcome, trace. rewrite run_cases.
  rewrite version_path_at_root, README_PATH_at_root, requirements_at_cwd
    by assumption.
  destruct (read_result e (py "requirements.txt")); [discriminate|].
  destruct (read_result e (version_path e)); [discriminate|].
  destruct (read_result e (README_PATH e)); [discriminate|].
  cbn [fst snd]. intros H. injection H as <-. reflexivity.
Qed.

Lemma successful_run_order_witness :
  let e := launched_in_root sample_checkout in
  trace e =
  [ EvOpen (cwd e ++ [py "requirements.txt"]);
    EvOpen (root e ++ [py "restless_quantum_volume"; py "VERSION.txt"]);
    EvOpen (root e ++ [py "README.md"]);
    EvScan (cwd e);
    EvSetup sample_descriptor ].
Proof.
  apply (successful_run_order (launched_in_root sample_checkout)
           sample_descriptor);
    vm_compute; reflexivity.
Defined.

(** X5: [setup] is called exactly when the three reads have all given
    text, and then with the record built from what was read and found: when
    a read fails it is not called, and no run calls it with two different
    records. *)
Theorem setup_called_iff_reads_succeed (e : env) (d : descriptor) :
  In (EvSetup d) (trace e) <->
  exists r v m,
    read_result e (py "requirements.txt") = inr r
    /\ read_result e (version_path e) = inr v
    /\ read_result e (README_PATH e) = inr m
    /\ d = kwargs (splitlines r) (rstrip v) m
                  (find_packages_in e [py "test*"]).
Proof.
  unfold trace. rewrite run_cases.
  destruct (read_result e (py "requirements.txt")) as [x|r].
  { cbn [fst In]. split.
    - intros [H|[]]. discriminate.
    - intros (? & ? & ? & H & _). discriminate. }
  destruct (read_result e (version_path e)) as [x|v].
  { cbn [fst In]. split.
    - intros [H|[H|[]]]; discriminate.
    - intros (? & ? & ? & _ & H & _). discriminate. }
  destruct (read_result e (README_PATH e)) as [x|m].
  { cbn [fst In]. split.
    - intros [H|[H|[H|[]]]]; discriminate.
    - intros (? & ? & ? & _ & _ & H & _). discriminate. }
  cbn [fst In]. split.
  - intros [H|[H|[H|[H|[H|[]]]]]]; try discriminate.
    injection H as <-. now exists r, v, m.
  - intros (r' & v' & m' & Hr & Hv & Hm & ->).
    do 4 right. left. congruence.
Qed.

Lemma normpath_isabs (q : str) : isabs q = true -> isabs (normpath q) = true.
Proof.
  intros H. unfold normpath. destruct q as [|c q]; [discriminate|].
  unfold isabs in H. rewrite H. cbn [andb].
  destruct (startswith (c :: q) [SLASH; SLASH]
            && negb (startswith (c :: q) [SLASH; SLASH; SLASH]));
    reflexivity.
Qed.

Lemma abspath_isabs (e : env) (p : str) : isabs (abspath e p) = true.
Proof.
  unfold abspath. apply normpath_isabs. destruct (isabs p) eqn:A;
    [exact A|].
  rewrite isabs_join; [reflexivity|discriminate|exact A].
Qed.

(** X6: the version file and the README are opened by absolute path
    names, the requirements file by a relative one. *)
Theorem opened_path_names (e : env) :
  isabs (version_path e) = true
  /\ isabs (README_PATH e) = true
  /\ isabs (py "requirements.txt") = false.
Proof.
  split; [apply abspath_isabs|]. split; [|reflexivity].
  unfold README_PATH. pose proof (abspath_isabs e (dirname (script e))) as A.
  rewrite isabs_join; [exact A| |reflexivity].
  intros E. rewrite E in A. discriminate.
Qed.

(** X7: the long description is the text of the README below the root as
    it was read, nothing removed. *)
Theorem long_description_is_readme (e : env) (m : str) (d : descriptor) :
  wf_cwd e ->
  lookup (fs e) (root e ++ [py "README.md"]) = Found (File (Text m)) ->
  outcome e = inr d ->
  long_description d = m.
Proof.
  intros W Hm Hd. apply outcome_inr in Hd as (r & v & m' & _ & _ & Hm' & ->).
  apply read_result_text in Hm'.
  rewrite README_PATH_at_root in Hm' by assumption.
  cbn [long_description kwargs]. congruence.
Qed.

Lemma long_description_is_readme_witness :
  long_description sample_descriptor = sample_readme.
Proof.
  apply (long_description_is_readme (launched_in_root sample_checkout)
           sample_readme sample_descriptor);
    vm_compute; reflexivity.
Defined.

(** ** The requirement lines *)

Lemma splitlines_from_no_break (n : nat) :
  forall (s cur : str),
    (List.length s <= n)%nat ->
    forallb (fun c => negb (islinebreak c)) cur = true ->
    Forall (fun l => forallb (fun c => negb (islinebreak c)) l = true)
           (splitlines_from cur s).
Proof.
  induction n as [|n IH]; intros s cur Hn Hc.
  - destruct s; [|cbn [List.length] in Hn; lia].
    cbn [splitlines_from]. destruct cur; constructor; [|constructor].
    now rewrite forallb_rev.
  - destruct s as [|c s].
    + cbn [splitlines_from]. destruct cur; constructor; [|constructor].
      now rewrite forallb_rev.
    + cbn [List.length] in Hn. cbn [splitlines_from].
      destruct (islinebreak c) eqn:B.
      * constructor; [now rewrite forallb_rev|].
        destruct s as [|d s']; [apply IH; [cbn [List.length]; lia|reflexivity]|].
        cbn [List.length] in Hn.
        destruct ((c =? CR) && (d =? LF));
          apply IH; cbn [List.length]; (lia || reflexivity).
      * apply IH; [lia|]. cbn [forallb]. now rewrite B, Hc.
Qed.

Lemma splitlines_from_last_line (l cur : str) :
  forallb (fun c => negb (islinebreak c)) l = true ->
  splitlines_from cur l
  = match rev cur ++ l with [] => [] | _ => [rev cur ++ l] end.
Proof.
  revert cur; induction l as [|c l IH]; intros cur H.
  - cbn [splitlines_from]. rewrite app_nil_r. destruct cur as [|x cur];
      [reflexivity|].
    destruct (rev (x :: cur)) eqn:E; [|reflexivity].
    apply (f_equal (@List.length N)) in E. rewrite length_rev in E.
    discriminate.
  - cbn [forallb] in H. apply andb_true_iff in H as [Hc Hl].
    apply negb_true_iff in Hc. cbn [splitlines_from]. rewrite Hc, (IH _ Hl).
    cbn [rev]. rewrite <- app_assoc. reflexivity.
Qed.

Lemma splitlines_join (ls : list str) :
  Forall (fun l => forallb (fun c => negb (islinebreak c)) l = true) ls ->
  last ls [] <> [] ->
  splitlines (join_sep LF ls) = ls.
Proof.
  induction 1 as [|l ls Hl H IH]; intros Hlast; [contradiction|].
  destruct ls as [|l2 rest].
  - cbn [join_sep last] in *. unfold splitlines.
    rewrite splitlines_from_last_line by assumption. cbn [rev app].
    destruct l; [contradiction|reflexivity].
  - change (join_sep LF (l :: l2 :: rest))
      with (l ++ LF :: join_sep LF (l2 :: rest)).
    unfold splitlines at 1. rewrite splitlines_from_line by assumption.
    cbn [rev app]. rewrite IH; [reflexivity|exact Hlast].
Qed.

(** X8: every entry of [install_requires] is a single line: none holds a
    line boundary character. *)
Theorem install_requires_single_lines (e : env) (d : descriptor) :
  outcome e = inr d ->
  Forall (fun l => forallb (fun c => negb (islinebreak c)) l = true)
         (install_requires d).
Proof.
  intros Hd. apply outcome_inr in Hd as (r & v & m & _ & _ & _ & ->).
  cbn [install_requires kwargs]. unfold splitlines.
  now apply (splitlines_from_no_break (List.length r)).
Qed.

Lemma install_requires_single_lines_witness :
  Forall (fun l => forallb (fun c => negb (islinebreak c)) l = true)
         (install_requires sample_descriptor).
Proof.
  apply (install_requires_single_lines (launched_in_root sample_checkout)
           sample_descriptor).
  vm_compute. reflexivity.
Defined.

(** X9: a requirements file whose last line is not closed by a newline
    loses nothing: for lines put together with line feeds between them,
    the last one not empty, [install_requires] is the list of these
    lines. *)
Theorem unterminated_last_line_kept (e : env) (ls : list str) (d : descriptor) :
  Forall (fun l => forallb (fun c => negb (islinebreak c)) l = true) ls ->
  last ls [] <> [] ->
  read_result e (py "requirements.txt") = inr (join_sep LF ls) ->
  outcome e = inr d ->
  install_requires d = ls.
Proof.
  intros Hls Hlast Hr Hd.
  apply outcome_inr in Hd as (r & v & m & Hr' & _ & _ & ->).
  cbn [install_requires kwargs].
  assert (r = join_sep LF ls) by congruence. subst r.
  now apply splitlines_join.
Qed.

Lemma unterminated_last_line_kept_witness :
  install_requires
    (kwargs [py "numpy"; py "scipy"] (py "1.2.3") sample_readme
            (packages sample_descriptor))
  = [py "numpy"; py "scipy"].
Proof.
  apply (unterminated_last_line_kept
           (launched_in_root
              (checkout (Text (py "numpy" ++ [LF] ++ py "scipy"))
                        (Some (Text sample_version)) (Text sample_readme)))
           [py "numpy"; py "scipy"]).
  - repeat constructor.
  - discriminate.
  - vm_compute. reflexivity.
  - vm_compute. reflexivity.
Defined.

(** X10: the record depends on the run through four fields only: two
    records that agree on [version], [long_description], [packages] and
    [install_requires] are equal, and the description, the URL, the author
    and the author's address are the ones written in the script. *)
Theorem record_fixed_but_four_fields (e1 e2 : env) (d1 d2 : descriptor) :
  outcome e1 = inr d1 ->
  outcome e2 = inr d2 ->
  (version d1 = version d2 ->
   long_description d1 = long_description d2 ->
   packages d1 = packages d2 ->
   install_requires d1 = install_requires d2 ->
   d1 = d2)
  /\ description d1 = py "A restless quantum volume experiment with restless analysisnd restless mixin for quantum volume"
  /\ url d1 = py "https://github.com/danielazaidenberg/Restless Quantum Volume"
  /\ author d1 = py "Daniela Zaidenberg and Will Shanks"
  /\ author_email d1 = py "Daniela.Zaidenberg@ibm.com and Will.Shanks@ibm.com".
Proof.
  intros H1 H2.
  apply outcome_inr in H1 as (r1 & v1 & m1 & _ & _ & _ & ->).
  apply outcome_inr in H2 as (r2 & v2 & m2 & _ & _ & _ & ->).
  cbn [version long_description packages install_requires kwargs].
  split; [|repeat split]. intros -> -> -> ->. reflexivity.
Qed.

Lemma record_fixed_but_four_fields_witness :
  (version sample_descriptor = version sample_descriptor ->
   long_description sample_descriptor = long_description sample_descriptor ->
   packages sample_descriptor = packages sample_descriptor ->
   install_requires sample_descriptor = install_requires sample_descriptor ->
   sample_descriptor = sample_descriptor)
  /\ description sample_descriptor = py "A restless quantum volume experiment with restless analysisnd restless mixin for quantum volume"
  /\ url sample_descriptor = py "https://github.com/danielazaidenberg/Restless Quantum Volume"
  /\ author sample_descriptor = py "Daniela Zaidenberg and Will Shanks"
  /\ author_email sample_descriptor = py "Daniela.Zaidenberg@ibm.com and Will.Shanks@ibm.com".
Proof.
  apply (record_fixed_but_four_fields
           (launched_in_root sample_checkout) (launched_in_home sample_checkout)
           sample_descriptor sample_descriptor);
    vm_compute; reflexivity.
Defined.

(** ** The packages found *)

Lemma startswith_iff (s p : str) :
  startswith s p = true <-> exists t, s = p ++ t.
Proof.
  revert s; induction p as [|c p IH]; intros s.
  - split; [intros _; now exists s|reflexivity].
  - destruct s as [|x s]; cbn [startswith].
    + split; [discriminate|]. intros [t H]. discriminate.
    + rewrite andb_true_iff, N.eqb_eq, IH. split.
      * intros [-> [t ->]]. now exists t.
      * intros [t H]. injection H as -> ->. split; [reflexivity|now exists t].
Qed.

Lemma endswith_iff (s p : str) :
  endswith s p = true <-> exists a, s = a ++ p.
Proof.
  unfold endswith. rewrite startswith_iff. split.
  - intros [t H]. exists (rev t).
    apply (f_equal (@rev N)) in H.
    now rewrite rev_involutive, rev_app_distr, rev_involutive in H.
  - intros [a ->]. exists (rev a). apply rev_app_distr.
Qed.

(** A pattern of plain characters matches that name only. *)
Lemma fnmatch_literal (lit n : str) :
  forallb (fun p => negb (p =? STAR) && negb (p =? QMARK)) lit = true ->
  fnmatchcase_pat lit n = str_eqb lit n.
Proof.
  revert n; induction lit as [|p lit IH]; intros n H.
  - destruct n; reflexivity.
  - cbn [forallb] in H. apply andb_true_iff in H as [Hp Hl].
    apply andb_true_iff in Hp as [Hs Hq].
    apply negb_true_iff in Hs, Hq.
    cbn [fnmatchcase_pat]. rewrite Hs.
    destruct n as [|c n]; [reflexivity|].
    cbn [str_eqb]. now rewrite Hq, orb_false_l, IH.
Qed.

Lemma fnmatch_star_unfold (pat n : str) :
  fnmatchcase_pat (STAR :: pat) n
  = fnmatchcase_pat pat n
    || match n with
       | [] => false
       | _ :: n' => fnmatchcase_pat (STAR :: pat) n'
       end.
Proof. destruct n; cbn [fnmatchcase_pat]; rewrite N.eqb_refl; reflexivity. Qed.

(** A star followed by plain characters asks for a suffix. *)
Lemma fnmatch_star_suffix (lit n : str) :
  forallb (fun p => negb (p =? STAR) && negb (p =? QMARK)) lit = true ->
  fnmatchcase_pat (STAR :: lit) n = endswith n lit.
Proof.
  intros H.
  assert (E : fnmatchcase_pat (STAR :: lit) n = true <-> exists a, n = a ++ lit).
  { induction n as [|c n IH]; rewrite fnmatch_star_unfold, orb_true_iff,
      (fnmatch_literal _ _ H), str_eqb_eq.
    - split.
      + intros [<-|F]; [now exists []|discriminate].
      + intros [a Ha]. left. symmetry in Ha.
        apply app_eq_nil in Ha as [_ Ha]. now symmetry.
    - rewrite IH. split.
      + intros [<-|[a ->]]; [now exists []|now exists (c :: a)].
      + intros [[|x a] Ha]; [left; now symmetry|].
        right. injection Ha as -> ->. now exists a. }
  rewrite <- endswith_iff in E.
  destruct (fnmatchcase_pat (STAR :: lit) n), (endswith n lit);
    try reflexivity.
  - symmetry. now apply E.
  - now apply E.
Qed.

(** What the exclude filter of the script's call leaves out. *)
Lemma exclude_filter_test (pkg : str) :
  filter_call (ALWAYS_EXCLUDE ++ [py "test*"]) pkg
  = str_eqb (py "ez_setup") pkg
    || endswith pkg (py "__pycache__")
    || startswith pkg (py "test").
Proof.
  unfold filter_call, ALWAYS_EXCLUDE. cbn [app existsb].
  rewrite fnmatch_test_star, orb_false_r. unfold fnmatchcase.
  rewrite (fnmatch_literal (py "ez_setup") pkg eq_refl).
  change (py "*__pycache__") with (STAR :: py "__pycache__").
  rewrite (fnmatch_star_suffix (py "__pycache__") pkg eq_refl).
  now rewrite orb_assoc.
Qed.

Lemma package_name_app (p q : list str) :
  p <> [] -> q <> [] ->
  package_name (p ++ q) = package_name p ++ DOT :: package_name q.
Proof.
  unfold package_name. intros Hp Hq.
  induction p as [|x p IH]; [contradiction|].
  destruct p as [|y p].
  - destruct q; [contradiction|reflexivity].
  - change (join_sep DOT ((x :: y :: p) ++ q))
      with (x ++ DOT :: join_sep DOT ((y :: p) ++ q)).
    rewrite IH by discriminate.
    change (join_sep DOT (x :: y :: p)) with (x ++ DOT :: join_sep DOT (y :: p)).
    now rewrite <- app_assoc.
Qed.

Lemma str_neq_last (s : str) (c : N) (lit : str) :
  last lit c <> c -> lit <> [] -> str_eqb (s ++ [c]) lit = false.
Proof.
  intros Hl Hne. apply str_eqb_neq. intros E. apply Hl.
  rewrite <- E. apply last_last.
Qed.

(** Of the patterns of the script's call only "test*" prunes, and only the
    directory whose package name is "test". *)
Lemma pruned_only_test (pkg : str) :
  pruned (ALWAYS_EXCLUDE ++ [py "test*"]) pkg = true -> pkg = py "test".
Proof.
  unfold pruned, filter_contains, ALWAYS_EXCLUDE. cbn [app existsb].
  rewrite (str_neq_last pkg STAR (py "ez_setup")),
    (str_neq_last pkg STAR (py "*__pycache__"))
    by (vm_compute; discriminate).
  change (pkg ++ [DOT; STAR]) with (pkg ++ [DOT] ++ [STAR]).
  rewrite !app_assoc.
  rewrite (str_neq_last (pkg ++ [DOT]) STAR (py "ez_setup")),
    (str_neq_last (pkg ++ [DOT]) STAR (py "*__pycache__"))
    by (vm_compute; discriminate).
  cbn [orb]. rewrite !orb_false_r. intros H.
  apply orb_true_iff in H as [H|H]; apply str_eqb_eq in H.
  - change (py "test*") with (py "test" ++ [STAR]) in H.
    now apply app_inj_tail in H as [H _].
  - change (py "test*") with (py "tes" ++ [N_of_ascii "t"] ++ [STAR]) in H.
    rewrite app_assoc in H. apply app_inj_tail in H as [H _].
    apply app_inj_tail in H as [_ H]. discriminate.
Qed.

Lemma valid_package_inv (dir : str) (es : list (str * node)) :
  valid_package dir es = true ->
  contains DOT dir = false /\ looks_like_package es = true.
Proof.
  unfold valid_package. rewrite andb_true_iff, negb_true_iff. tauto.
Qed.

(** What [find_iter] yields lies on a chain of package directories. *)
Lemma find_iter_chain (exclude include : list str) (n : node) :
  forall (rel : list str) (pkg : str),
    In pkg (find_iter exclude include rel n) ->
    exists suffix,
      suffix <> []
      /\ pkg = package_name (rel ++ suffix)
      /\ is_package_chain n suffix
      /\ filter_call exclude pkg = false.
Proof.
  induction n as [c|es IH] using node_nested_ind; intros rel pkg H.
  - destruct H.
  - cbn [find_iter] in H. apply in_app_or in H as [H|H];
      apply in_flat_map in H as [[dir sub] [Hin H]];
      (destruct sub as [c|es']; [destruct H|]).
    + destruct (valid_package dir es') eqn:V; [|destruct H].
      destruct (filter_call include (package_name (rel ++ [dir])));
        [|destruct H].
      destruct (filter_call exclude (package_name (rel ++ [dir]))) eqn:X;
        [destruct H|].
      destruct H as [<-|[]]. apply valid_package_inv in V as [V1 V2].
      exists [dir]. repeat split; try assumption; try discriminate.
      exists es'. repeat split; assumption.
    + destruct (valid_package dir es') eqn:V; [|destruct H].
      destruct (pruned exclude (package_name (rel ++ [dir]))); [destruct H|].
      cbn [negb andb] in H.
      rewrite Forall_forall in IH. specialize (IH _ Hin). cbn [snd] in IH.
      destruct (IH _ _ H) as (suffix & Hne & -> & Hc & Hx).
      apply valid_package_inv in V as [V1 V2].
      exists (dir :: suffix). repeat split; try assumption; try discriminate.
      * now rewrite <- app_assoc.
      * exists es'. repeat split; assumption.
Qed.

(** Every chain of package directories whose name passes the filters, and
    none of whose parents is pruned, is yielded. *)
Lemma find_iter_complete (exclude include : list str) (suffix : list str) :
  forall (n : node) (rel : list str),
    suffix <> [] ->
    is_package_chain n suffix ->
    filter_call include (package_name (rel ++ suffix)) = true ->
    filter_call exclude (package_name (rel ++ suffix)) = false ->
    (forall p q, suffix = p ++ q -> p <> [] -> q <> [] ->
                 pruned exclude (package_name (rel ++ p)) = false) ->
    In (package_name (rel ++ suffix)) (find_iter exclude include rel n).
Proof.
  induction suffix as [|dir rest IH]; intros n rel Hne Hc Hi Hx Hp;
    [contradiction|].
  destruct n as [c|entries]; [destruct Hc|].
  destruct Hc as (es & Hin & Hd & Hl & Hc).
  assert (V : valid_package dir es = true)
    by (unfold valid_package; now rewrite Hd, Hl).
  cbn [find_iter]. apply in_or_app.
  destruct rest as [|d2 rest].
  - left. apply in_flat_map. exists (dir, Dir es). split; [exact Hin|].
    rewrite V, Hi, Hx. left. reflexivity.
  - right. apply in_flat_map. exists (dir, Dir es). split; [exact Hin|].
    rewrite V, (Hp [dir] (d2 :: rest) eq_refl) by discriminate.
    cbn [negb andb].
    replace (rel ++ dir :: d2 :: rest) with ((rel ++ [dir]) ++ d2 :: rest)
      in * by now rewrite <- app_assoc.
    apply IH; try assumption; try discriminate.
    intros p q E Hp0 Hq0. rewrite <- app_assoc.
    apply (Hp (dir :: p) q); [cbn [app]; now rewrite E|discriminate|exact Hq0].
Qed.

Lemma find_packages_in_iff (e : env) (pkg : str) :
  In pkg (find_packages_in e [py "test*"]) <->
  exists n rel,
    lookup (fs e) (cwd e) = Found n
    /\ rel <> []
    /\ pkg = package_name rel
    /\ is_package_chain n rel
    /\ startswith pkg (py "test") = false
    /\ pkg <> py "ez_setup"
    /\ endswith pkg (py "__pycache__") = false.
Proof.
  unfold find_packages_in. split.
  - destruct (lookup (fs e) (cwd e)) as [| |n]; try (intros []).
    intros H. apply find_iter_chain in H as (rel & Hne & -> & Hc & Hx).
    cbn [app] in *. rewrite exclude_filter_test in Hx.
    apply orb_false_iff in Hx as [Hx Ht].
    apply orb_false_iff in Hx as [Hz Hy].
    exists n, rel. repeat split; try assumption.
    intros E. rewrite E in Hz. discriminate.
  - intros (n & rel & -> & Hne & -> & Hc & Ht & Hz & Hy).
    assert (Hx : filter_call (ALWAYS_EXCLUDE ++ [py "test*"])
                             (package_name rel) = false).
    { rewrite exclude_filter_test, Ht, Hy, !orb_false_r.
      apply str_eqb_neq. congruence. }
    apply (find_iter_complete _ _ rel n []); try assumption.
    + unfold filter_call. cbn [existsb]. unfold fnmatchcase.
      now rewrite fnmatch_star_any.
    + intros p q E Hp Hq. cbn [app].
      destruct (pruned (ALWAYS_EXCLUDE ++ [py "test*"]) (package_name p))
        eqn:P; [|reflexivity].
      apply pruned_only_test in P.
      rewrite E, package_name_app, P in Ht by assumption.
      discriminate.
Qed.

(** X11: [packages] holds exactly the dotted names of the chains of
    package directories below the working directory (each directory with a
    name free of dots and a file [__init__.py], its parents too) whose
    name does not begin with "test", is not "ez_setup" and does not end
    in "__pycache__". *)
Theorem packages_characterised (e : env) (d : descriptor) (pkg : str) :
  outcome e = inr d ->
  (In pkg (packages d) <->
   exists n rel,
     lookup (fs e) (cwd e) = Found n
     /\ rel <> []
     /\ pkg = package_name rel
     /\ is_package_chain n rel
     /\ startswith pkg (py "test") = false
     /\ pkg <> py "ez_setup"
     /\ endswith pkg (py "__pycache__") = false).
Proof.
  intros Hd. apply outcome_inr in Hd as (r & v & m & _ & _ & _ & ->).
  cbn [packages kwargs]. apply find_packages_in_iff.
Qed.

Lemma packages_characterised_witness :
  let e := launched_in_root sample_checkout in
  In (py "restless_quantum_volume.tests") (packages sample_descriptor) <->
  exists n rel,
    lookup (fs e) (cwd e) = Found n
    /\ rel <> []
    /\ py "restless_quantum_volume.tests" = package_name rel
    /\ is_package_chain n rel
    /\ startswith (py "restless_quantum_volume.tests") (py "test") = false
    /\ py "restless_quantum_volume.tests" <> py "ez_setup"
    /\ endswith (py "restless_quantum_volume.tests") (py "__pycache__") = false.
Proof.
  apply (packages_characterised (launched_in_root sample_checkout)
           sample_descriptor (py "restless_quantum_volume.tests")).
  vm_compute. reflexivity.
Defined.

Lemma package_name_tail (top : str) (rest : list str) :
  exists tail,
    package_name (top :: rest) = top ++ tail
    /\ (tail = [] \/ exists u, tail = DOT :: u).
Proof.
  unfold package_name. destruct rest as [|r rest].
  - exists []. split; [cbn [join_sep]; now rewrite app_nil_r|now left].
  - exists (DOT :: join_sep DOT (r :: rest)). split; [reflexivity|].
    right. now eexists.
Qed.

Lemma dotfree_prefix_eq (a b ta tb : str) :
  contains DOT a = false -> contains DOT b = false ->
  (ta = [] \/ exists u, ta = DOT :: u) ->
  (tb = [] \/ exists u, tb = DOT :: u) ->
  a ++ ta = b ++ tb -> a = b.
Proof.
  unfold contains.
  revert b; induction a as [|x a IH]; intros [|y b] Ha Hb Hta Htb E;
    cbn [existsb app] in *.
  - reflexivity.
  - apply orb_false_iff in Hb as [Hy _]. apply N.eqb_neq in Hy.
    destruct Hta as [->|[u ->]]; [discriminate|]. congruence.
  - apply orb_false_iff in Ha as [Hx _]. apply N.eqb_neq in Hx.
    destruct Htb as [->|[u ->]]; [discriminate|]. congruence.
  - apply orb_false_iff in Ha as [_ Ha]. apply orb_false_iff in Hb as [_ Hb].
    injection E as -> E. f_equal. now apply IH.
Qed.

(** The first directory of a package name is read back from the name. *)
Lemma package_name_top (a b : str) (ra rb : list str) :
  contains DOT a = false -> contains DOT b = false ->
  package_name (a :: ra) = package_name (b :: rb) -> a = b.
Proof.
  intros Ha Hb E.
  destruct (package_name_tail a ra) as (ta & Ea & Ta).
  destruct (package_name_tail b rb) as (tb & Eb & Tb).
  rewrite Ea, Eb in E. now apply (dotfree_prefix_eq a b ta tb).
Qed.

(** X12: when the working directory holds the package directory
    [restless_quantum_volume] with its [__init__.py], the package is in
    [packages]; when that directory has no [__init__.py], neither it nor
    anything below it is a package. *)
Theorem project_package_found (e : env) (d : descriptor)
        (entries es : list (str * node)) :
  lookup (fs e) (cwd e) = Found (Dir entries) ->
  In (py "restless_quantum_volume", Dir es) entries ->
  outcome e = inr d ->
  (looks_like_package es = true ->
   In (py "restless_quantum_volume") (packages d))
  /\ ((forall es', In (py "restless_quantum_volume", Dir es') entries ->
                   looks_like_package es' = false) ->
      forall rest,
        ~ In (package_name (py "restless_quantum_volume" :: rest)) (packages d)).
Proof.
  intros Hl Hin Hd. apply outcome_inr in Hd as (r & v & m & _ & _ & _ & ->).
  cbn [packages kwargs]. split.
  - intros Hp. apply find_packages_in_iff.
    exists (Dir entries), [py "restless_quantum_volume"].
    repeat split; try assumption; try discriminate.
    exists es. repeat split; assumption.
  - intros Hno rest H. apply find_packages_in_iff in H
      as (n & rel & Hn & Hne & E & Hc & _).
    assert (n = Dir entries) by congruence. subst n.
    destruct rel as [|top rel]; [contradiction|].
    destruct Hc as (es' & Hin' & Hd' & Hp' & _).
    assert (top = py "restless_quantum_volume").
    { symmetry. eapply package_name_top; [reflexivity|exact Hd'|exact E]. }
    subst top. rewrite (Hno es' Hin') in Hp'. discriminate.
Qed.

Lemma project_package_found_witness :
  let e := launched_in_root sample_checkout in
  (looks_like_package [init_py; (py "VERSION.txt", File (Text sample_version));
                       (py "tests", Dir [init_py])] = true ->
   In (py "restless_quantum_volume") (packages sample_descriptor))
  /\ ((forall es', In (py "restless_quantum_volume", Dir es')
                      [ (py "setup.py", File (Text []));
                        (py "requirements.txt", File (Text sample_requirements));
                        (py "README.md", File (Text sample_readme));
                        (py "restless_quantum_volume",
                         Dir [init_py;
                              (py "VERSION.txt", File (Text sample_version));
                              (py "tests", Dir [init_py])]);
                        (py "test", Dir [init_py; (py "unit", Dir [init_py])]) ] ->
                   looks_like_package es' = false) ->
      forall rest,
        ~ In (package_name (py "restless_quantum_volume" :: rest))
             (packages sample_descriptor)).
Proof.
  apply (project_package_found (launched_in_root sample_checkout)
           sample_descriptor).
  - vm_compute. reflexivity.
  - do 3 right. left. reflexivity.
  - vm_compute. reflexivity.
Defined.
